(** * The virtual disk of PyFatFs: source/diskio_working.c

    A shallow embedding of the FatFs disk I/O layer that backs the Python
    bindings with a 4 MB virtual disk, kept either in a calloc'ed buffer or
    in the image file "fatfs_disk.img".

    - The globals of the module ([virtual_disk], [disk_initialized],
      [disk_file], [use_file_backend]) form the record [globals].
    - The C library and the host (the image file, FILE handles and their
      positions, the room left on the file system, whether calloc succeeds)
      form the record [host]; every stdio / heap call is logged in [trace].
    - Code runs in a state monad [M] over both.
    - FatFs types LBA_t, UINT, DWORD are 32-bit unsigned (FF_LBA64 = 0, the
      FatFs default): their sums and products wrap modulo 2^32 ([wrap32]).
    - Memory (the caller's buffer, the virtual disk, the bytes of the image
      file) is a function from offsets to byte values. *)

From Stdlib Require Import ZArith Bool List Lia FunctionalExtensionality.
Import ListNotations.
Open Scope Z_scope.

Module DiskIO.

(** ** Configuration (diskio_working.c, lines 12-14) *)

Definition SECTOR_SIZE : Z := 512.
Definition TOTAL_SECTORS : Z := 8192.

(** ** FatFs types and codes (ff.h, diskio.h) *)

Definition wrap32 (x : Z) : Z := x mod 2 ^ 32.
Definition is_u32 (x : Z) : Prop := 0 <= x < 2 ^ 32.

Inductive DRESULT := RES_OK | RES_ERROR | RES_WRPRT | RES_NOTRDY | RES_PARERR.

Definition DSTATUS := Z.
Definition STA_NOINIT : DSTATUS := 1.

Definition CTRL_SYNC : Z := 0.
Definition GET_SECTOR_COUNT : Z := 1.
Definition GET_SECTOR_SIZE : Z := 2.
Definition GET_BLOCK_SIZE : Z := 3.

(** ** Memory, host and state *)

(** Bytes at offsets 0, 1, 2, ... of a buffer. *)
Definition bytes := Z -> Z.
Definition zeros : bytes := fun _ => 0.

(** The image file on the host: its length and its bytes. *)
Record image := mk_image { img_size : Z; img_data : bytes }.

Inductive fmode := MODE_RPLUS_B | MODE_WPLUS_B.

(** Calls to the C library, in the order they happen. *)
Inductive event :=
| Ev_fopen (m : fmode) (ok : bool)
| Ev_fclose (h : nat)
| Ev_fseek (h : nat) (off : Z)
| Ev_fread (h : nat) (n k : Z)
| Ev_fwrite (h : nat) (n k : Z)
| Ev_fflush (h : nat)
| Ev_calloc (n : Z) (ok : bool)
| Ev_memcpy (n : Z).

(** static globals of diskio_working.c; a FILE* is a handle number. *)
Record globals := mk_globals {
  virtual_disk : option bytes;
  disk_initialized : Z;
  disk_file : option nat;
  use_file_backend : Z
}.

Record host := mk_host {
  fs_image : option image;   (* DISK_IMAGE_FILE, None when absent *)
  fs_can_create : bool;      (* fopen(DISK_IMAGE_FILE, "w+b") may create it *)
  fs_capacity : Z;           (* largest length the image file can reach *)
  heap_ok : bool;            (* calloc succeeds *)
  next_handle : nat;         (* the next FILE object fopen hands out *)
  open_files : list nat;     (* FILE objects not yet fclose'd *)
  fpos : nat -> Z            (* file position of each FILE object *)
}.

Record state := mk_state { st_g : globals; st_h : host; trace : list event }.

(** ** A state monad *)

Definition M (A : Type) := state -> A * state.

Definition ret {A} (a : A) : M A := fun s => (a, s).
Definition bind {A B} (m : M A) (k : A -> M B) : M B :=
  fun s => let (a, s') := m s in k a s'.

Notation "x <- m ;; k" := (bind m (fun x => k))
  (at level 61, m at next level, right associativity).
Notation "m ;; k" := (bind m (fun _ => k)) (at level 61, right associativity).

Definition get : M state := fun s => (s, s).
Definition modify (f : state -> state) : M unit := fun s => (tt, f s).

Definition emit (e : event) : M unit :=
  modify (fun s => mk_state (st_g s) (st_h s) (trace s ++ [e])).

Definition modify_host (f : host -> host) : M unit :=
  modify (fun s => mk_state (st_g s) (f (st_h s)) (trace s)).

Definition set_virtual_disk (v : option bytes) : M unit :=
  modify (fun s => let g := st_g s in
    mk_state (mk_globals v (disk_initialized g) (disk_file g) (use_file_backend g))
             (st_h s) (trace s)).

Definition set_disk_initialized (v : Z) : M unit :=
  modify (fun s => let g := st_g s in
    mk_state (mk_globals (virtual_disk g) v (disk_file g) (use_file_backend g))
             (st_h s) (trace s)).

Definition set_disk_file (v : option nat) : M unit :=
  modify (fun s => let g := st_g s in
    mk_state (mk_globals (virtual_disk g) (disk_initialized g) v (use_file_backend g))
             (st_h s) (trace s)).

Definition upd {A} (f : nat -> A) (k : nat) (v : A) : nat -> A :=
  fun x => if Nat.eqb x k then v else f x.

Definition with_image_pos (H : host) (i : option image) (p : nat -> Z) : host :=
  mk_host i (fs_can_create H) (fs_capacity H) (heap_ok H)
          (next_handle H) (open_files H) p.

(** ** The C library *)

(** fopen: "r+b" opens an existing file, "w+b" creates (or truncates) it. *)
Definition fopen (m : fmode) : M (option nat) :=
  s <- get ;;
  let H := st_h s in
  let ok := match m with
            | MODE_RPLUS_B => match fs_image H with Some _ => true | None => false end
            | MODE_WPLUS_B => fs_can_create H
            end in
  if ok then
    let id := next_handle H in
    let img := match m with
               | MODE_RPLUS_B => fs_image H
               | MODE_WPLUS_B => Some (mk_image 0 zeros)
               end in
    modify_host (fun H => mk_host img (fs_can_create H) (fs_capacity H) (heap_ok H)
                   (S id) (id :: open_files H) (upd (fpos H) id 0)) ;;
    emit (Ev_fopen m true) ;;
    ret (Some id)
  else
    emit (Ev_fopen m false) ;;
    ret None.

Definition fclose (h : nat) : M Z :=
  modify_host (fun H => mk_host (fs_image H) (fs_can_create H) (fs_capacity H)
                 (heap_ok H) (next_handle H) (remove Nat.eq_dec h (open_files H)) (fpos H)) ;;
  emit (Ev_fclose h) ;;
  ret 0.

(** fseek(h, off, SEEK_SET); seeking past the end is allowed. *)
Definition fseek (h : nat) (off : Z) : M Z :=
  if off <? 0 then ret (-1)
  else
    modify_host (fun H => with_image_pos H (fs_image H) (upd (fpos H) h off)) ;;
    emit (Ev_fseek h off) ;;
    ret 0.

Definition fflush (h : nat) : M Z := emit (Ev_fflush h) ;; ret 0.

(** The image after writing [k] bytes of [buf] at [pos]; a gap between the
    old end and [pos] reads as zeros. *)
Definition write_image (img : image) (pos : Z) (buf : bytes) (k : Z) : image :=
  mk_image (Z.max (img_size img) (pos + k))
    (fun j => if (pos <=? j) && (j <? pos + k) then buf (j - pos)
              else if (img_size img <=? j) && (j <? pos) then 0
              else img_data img j).

(** fwrite(buf, 1, n, h): writes as much as the file system has room for;
    writing nothing leaves the file untouched. *)
Definition fwrite (h : nat) (buf : bytes) (n : Z) : M Z :=
  s <- get ;;
  let H := st_h s in
  let pos := fpos H h in
  match fs_image H with
  | None => emit (Ev_fwrite h n 0) ;; ret 0
  | Some img =>
      let k := Z.max 0 (Z.min n (fs_capacity H - pos)) in
      (if k =? 0 then ret tt
       else modify_host (fun H => with_image_pos H (Some (write_image img pos buf k))
                                    (upd (fpos H) h (pos + k)))) ;;
      emit (Ev_fwrite h n k) ;;
      ret k
  end.

(** fread(buff, 1, n, h): reads what is left before the end of file. *)
Definition fread (h : nat) (buff : bytes) (n : Z) : M (Z * bytes) :=
  s <- get ;;
  let H := st_h s in
  let pos := fpos H h in
  match fs_image H with
  | None => emit (Ev_fread h n 0) ;; ret (0, buff)
  | Some img =>
      let k := Z.max 0 (Z.min n (img_size img - pos)) in
      modify_host (fun H => with_image_pos H (fs_image H) (upd (fpos H) h (pos + k))) ;;
      emit (Ev_fread h n k) ;;
      ret (k, fun i => if (0 <=? i) && (i <? k) then img_data img (pos + i) else buff i)
  end.

Definition calloc (n : Z) : M (option bytes) :=
  s <- get ;;
  if heap_ok (st_h s) then emit (Ev_calloc n true) ;; ret (Some zeros)
  else emit (Ev_calloc n false) ;; ret None.

(** memcpy(dst + doff, src + soff, n) *)
Definition memcpy (dst : bytes) (doff : Z) (src : bytes) (soff n : Z) : M bytes :=
  emit (Ev_memcpy n) ;;
  ret (fun i => if (doff <=? i) && (i <? doff + n) then src (soff + (i - doff)) else dst i).

(** ** diskio_working.c *)

Definition get_globals : M globals := s <- get ;; ret (st_g s).

(** memset(zero_sector, 0, SECTOR_SIZE) *)
Definition zero_sector : bytes := zeros.

(** for (int i = 0; i < TOTAL_SECTORS; i++) { if (fwrite(...) != SECTOR_SIZE) ... };
    [true] when every sector was written. *)
Fixpoint zero_fill (h : nat) (n : nat) : M bool :=
  match n with
  | O => ret true
  | S n' =>
      w <- fwrite h zero_sector SECTOR_SIZE ;;
      if negb (w =? SECTOR_SIZE) then ret false else zero_fill h n'
  end.

(** init_virtual_disk, lines 27-64 *)
Definition init_virtual_disk : M Z :=
  g <- get_globals ;;
  let done_ := set_disk_initialized 1 ;; ret 1 in
  if negb (use_file_backend g =? 0) then
    f <- fopen MODE_RPLUS_B ;;
    set_disk_file f ;;
    match f with
    | Some _ => done_
    | None =>
        f2 <- fopen MODE_WPLUS_B ;;
        set_disk_file f2 ;;
        match f2 with
        | None => ret 0
        | Some h =>
            ok <- zero_fill h (Z.to_nat TOTAL_SECTORS) ;;
            if negb ok then
              fclose h ;; set_disk_file None ;; ret 0
            else
              fflush h ;; done_
        end
    end
  else
    match virtual_disk g with
    | Some _ => done_
    | None =>
        p <- calloc (TOTAL_SECTORS * SECTOR_SIZE) ;;
        set_virtual_disk p ;;
        match p with
        | None => ret 0
        | Some _ => done_
        end
    end.

(** cleanup_virtual_disk, lines 69-82; free(virtual_disk) only clears the
    pointer here, the heap itself is not modelled. *)
Definition cleanup_virtual_disk : M unit :=
  g <- get_globals ;;
  (match disk_file g with
   | Some h => fclose h ;; set_disk_file None
   | None => ret tt
   end) ;;
  (match virtual_disk g with
   | Some _ => set_virtual_disk None
   | None => ret tt
   end) ;;
  set_disk_initialized 0.

(** disk_status, lines 87-97 *)
Definition disk_status (pdrv : Z) : M DSTATUS :=
  g <- get_globals ;;
  if pdrv =? 0 then ret (if disk_initialized g =? 0 then STA_NOINIT else 0)
  else ret STA_NOINIT.

(** disk_initialize, lines 102-116 *)
Definition disk_initialize (pdrv : Z) : M DSTATUS :=
  if pdrv =? 0 then
    r <- init_virtual_disk ;;
    ret (if negb (r =? 0) then 0 else STA_NOINIT)
  else ret STA_NOINIT.

(** The shared guards of disk_read and disk_write (lines 128-134 and
    171-177): [true] when the request is refused with RES_PARERR. *)
Definition not_ready_guard (g : globals) (pdrv : Z) : bool :=
  negb (pdrv =? 0) || (disk_initialized g =? 0).

Definition range_guard (sector count : Z) : bool :=
  (TOTAL_SECTORS <=? sector) || (TOTAL_SECTORS <? wrap32 (sector + count)).

(** The file handle used when [use_file_backend && disk_file]. *)
Definition file_branch (g : globals) : option nat :=
  if negb (use_file_backend g =? 0) then disk_file g else None.

(** disk_read, lines 121-158: the result code and the caller's buffer. *)
Definition disk_read (pdrv : Z) (buff : bytes) (sector count : Z) : M (DRESULT * bytes) :=
  g <- get_globals ;;
  if not_ready_guard g pdrv then ret (RES_PARERR, buff) else
  if range_guard sector count then ret (RES_PARERR, buff) else
  match file_branch g with
  | Some h =>
      r <- fseek h (wrap32 (sector * SECTOR_SIZE)) ;;
      if negb (r =? 0) then ret (RES_ERROR, buff) else
      let bytes_to_read := wrap32 (count * SECTOR_SIZE) in
      rb <- fread h buff bytes_to_read ;;
      if negb (fst rb =? bytes_to_read) then ret (RES_ERROR, snd rb)
      else ret (RES_OK, snd rb)
  | None =>
      match virtual_disk g with
      | Some vd =>
          let offset := wrap32 (sector * SECTOR_SIZE) in
          let bytes_to_copy := wrap32 (count * SECTOR_SIZE) in
          b <- memcpy buff 0 vd offset bytes_to_copy ;;
          ret (RES_OK, b)
      | None => ret (RES_ERROR, buff)
      end
  end.

(** disk_write, lines 164-203 *)
Definition disk_write (pdrv : Z) (buff : bytes) (sector count : Z) : M DRESULT :=
  g <- get_globals ;;
  if not_ready_guard g pdrv then ret RES_PARERR else
  if range_guard sector count then ret RES_PARERR else
  match file_branch g with
  | Some h =>
      r <- fseek h (wrap32 (sector * SECTOR_SIZE)) ;;
      if negb (r =? 0) then ret RES_ERROR else
      let bytes_to_write := wrap32 (count * SECTOR_SIZE) in
      w <- fwrite h buff bytes_to_write ;;
      if negb (w =? bytes_to_write) then ret RES_ERROR
      else fflush h ;; ret RES_OK
  | None =>
      match virtual_disk g with
      | Some vd =>
          let offset := wrap32 (sector * SECTOR_SIZE) in
          let bytes_to_copy := wrap32 (count * SECTOR_SIZE) in
          vd' <- memcpy vd offset buff 0 bytes_to_copy ;;
          set_virtual_disk (Some vd') ;;
          ret RES_OK
      | None => ret RES_ERROR
      end
  end.

(** disk_ioctl, lines 209-242: the result code and the value stored
    through [buff] (None when nothing is stored). *)
Definition disk_ioctl (pdrv cmd : Z) : M (DRESULT * option Z) :=
  g <- get_globals ;;
  if negb (pdrv =? 0) then ret (RES_PARERR, None) else
  if cmd =? CTRL_SYNC then
    (match file_branch g with Some h => fflush h ;; ret tt | None => ret tt end) ;;
    ret (RES_OK, None)
  else if cmd =? GET_SECTOR_COUNT then ret (RES_OK, Some TOTAL_SECTORS)
  else if cmd =? GET_SECTOR_SIZE then ret (RES_OK, Some SECTOR_SIZE)
  else if cmd =? GET_BLOCK_SIZE then ret (RES_OK, Some 1)
  else ret (RES_PARERR, None).

(** The caller's memory of DWORD cells; a store through NULL (address 0)
    faults ([None]). *)
Definition mem := Z -> Z.

Definition store (m : mem) (p v : Z) : option mem :=
  if p =? 0 then None else Some (fun a => if a =? p then v else m a).

(** get_disk_info, lines 279-283 *)
Definition get_disk_info (total_sectors sector_size : Z) (m : mem) : M (option mem) :=
  let m1 := if negb (total_sectors =? 0) then store m total_sectors TOTAL_SECTORS
            else Some m in
  ret (match m1 with
       | None => None
       | Some m1 => if negb (sector_size =? 0) then store m1 sector_size SECTOR_SIZE
                    else Some m1
       end).

(** get_fattime, lines 247-258: a fixed timestamp; each shifted field fits
    in an int and is cast to DWORD. *)
Definition get_fattime : Z :=
  Z.lor (Z.lor (Z.lor (Z.lor (Z.lor
    (wrap32 (Z.shiftl 45 25)) (wrap32 (Z.shiftl 10 21))) (wrap32 (Z.shiftl 11 16)))
    (wrap32 (Z.shiftl 14 11))) (wrap32 (Z.shiftl 30 5))) (wrap32 (Z.shiftr 0 1)).

(** format_virtual_disk, lines 265-276 *)
Definition format_virtual_disk : M Z :=
  g <- get_globals ;;
  if disk_initialized g =? 0 then
    r <- init_virtual_disk ;;
    if r =? 0 then ret 0 else ret 1
  else ret 1.

(** cleanup_disk_resources, lines 286-289 *)
Definition cleanup_disk_resources : M unit := cleanup_virtual_disk.

(** fatfs_get_disk_info (fatfs_python.c, lines 158-163): the locals
    [total_sectors] and [sector_size] are the cells at [pts] and [pss];
    the result is the pair handed to Py_BuildValue("(ii)", ...). *)
Definition fatfs_get_disk_info (pts pss : Z) (m : mem) : M (option (Z * Z)) :=
  r <- get_disk_info pts pss m ;;
  ret (match r with
       | Some m' => Some (m' pts, m' pss)
       | None => None
       end).

(** ** diskio_minimal.c: the stub driver of the other build *)

Module Minimal.

Definition DEV_FLASH : Z := 0.
Definition DEV_MMC : Z := 1.
Definition DEV_USB : Z := 2.

(** The three [case] labels of every switch on [pdrv]; their bodies are
    the same in each function. *)
Definition known_drive (pdrv : Z) : bool :=
  (pdrv =? DEV_FLASH) || (pdrv =? DEV_MMC) || (pdrv =? DEV_USB).

(** disk_status, lines 17-40 *)
Definition disk_status (pdrv : Z) : DSTATUS :=
  if known_drive pdrv then 0 else STA_NOINIT.

(** disk_initialize, lines 46-69 *)
Definition disk_initialize (pdrv : Z) : DSTATUS :=
  if known_drive pdrv then 0 else STA_NOINIT.

(** disk_read, lines 75-105: the result and the caller's buffer. *)
Definition disk_read (pdrv : Z) (buff : bytes) (sector count : Z) : DRESULT * bytes :=
  (if known_drive pdrv then RES_OK else RES_PARERR, buff).

(** disk_write, lines 113-143 *)
Definition disk_write (pdrv : Z) (buff : bytes) (sector count : Z) : DRESULT :=
  if known_drive pdrv then RES_OK else RES_PARERR.

(** disk_ioctl, lines 151-231: the result and the value stored through
    [buff]. *)
Definition disk_ioctl (pdrv cmd : Z) : DRESULT * option Z :=
  if known_drive pdrv then
    if cmd =? CTRL_SYNC then (RES_OK, None)
    else if cmd =? GET_SECTOR_COUNT then (RES_OK, Some 1024)
    else if cmd =? GET_SECTOR_SIZE then (RES_OK, Some 512)
    else if cmd =? GET_BLOCK_SIZE then (RES_OK, Some 1)
    else (RES_PARERR, None)
  else (RES_PARERR, None).

(** get_fattime, lines 237-247 *)
Definition get_fattime : Z :=
  Z.lor (Z.lor (Z.lor (Z.lor (Z.lor
    (wrap32 (Z.shiftl 45 25)) (wrap32 (Z.shiftl 1 21))) (wrap32 (Z.shiftl 1 16)))
    (wrap32 (Z.shiftl 12 11))) (wrap32 (Z.shiftl 0 5))) (wrap32 (Z.shiftr 0 1)).

End Minimal.

(** ** States *)

(** A device on which initialization succeeded: the flag is set and the
    configured backend is present (for the file backend, an open handle on
    an existing image). *)
Definition ready (s : state) : Prop :=
  disk_initialized (st_g s) <> 0 /\
  (use_file_backend (st_g s) <> 0 ->
     disk_file (st_g s) <> None /\ fs_image (st_h s) <> None) /\
  (use_file_backend (st_g s) = 0 -> virtual_disk (st_g s) <> None).

(** The bytes the drive keeps: the image file for the file backend, the
    buffer of TOTAL_SECTORS * SECTOR_SIZE bytes for the memory backend. *)
Definition backend (s : state) : option image :=
  if use_file_backend (st_g s) =? 0
  then option_map (mk_image (TOTAL_SECTORS * SECTOR_SIZE)) (virtual_disk (st_g s))
  else fs_image (st_h s).

(** FAT timestamp fields: year since 1980, month, day, hour, minute,
    seconds / 2. *)
Definition fat_fields (t : Z) : list Z :=
  [Z.shiftr t 25; Z.land (Z.shiftr t 21) 15; Z.land (Z.shiftr t 16) 31;
   Z.land (Z.shiftr t 11) 31; Z.land (Z.shiftr t 5) 63; Z.land t 31].

(** The module's globals at process start. *)
Definition fresh_globals (use_file : Z) : globals := mk_globals None 0 None use_file.

(** No FILE object the host will hand out is already open. *)
Definition host_wf (H : host) : Prop :=
  forall x, In x (open_files H) -> (x < next_handle H)%nat.

(** ** Sample configurations *)

Definition DISK_BYTES : Z := TOTAL_SECTORS * SECTOR_SIZE.

(** A host without the image file; [cap] bytes of room for it. *)
Definition host_empty (cap : Z) : host :=
  mk_host None true cap true 0%nat [] (fun _ => 0).

(** A host on which a full-size zero image already exists. *)
Definition host_with_image (cap : Z) : host :=
  mk_host (Some (mk_image DISK_BYTES zeros)) true cap true 0%nat [] (fun _ => 0).

(** A process that has run disk_initialize(0) with the memory backend. *)
Definition mem_ready : state :=
  mk_state (mk_globals (Some zeros) 1 None 0) (host_empty 0) [].

(** A process that opened an existing image with the file backend. *)
Definition file_ready : state :=
  mk_state (mk_globals None 1 (Some 0%nat) 1)
    (mk_host (Some (mk_image DISK_BYTES zeros)) true (2 ^ 40) true 1%nat [0%nat]
       (fun _ => 0)) [].

(** A process that has not initialized the memory backend yet. *)
Definition mem_fresh : state := mk_state (fresh_globals 0) (host_empty 0) [].

(** File backend selected, no image yet, room for [cap] bytes. *)
Definition file_fresh (cap : Z) : state := mk_state (fresh_globals 1) (host_empty cap) [].

Example read_zero_sectors_ok :
  fst (fst (disk_read 0 zeros 0 0 mem_ready)) = RES_OK.
Proof. reflexivity. Qed.

Example read_past_end_parerr :
  fst (fst (disk_read 0 zeros 8191 2 file_ready)) = RES_PARERR.
Proof. reflexivity. Qed.

Example write_read_memory :
  let '(w, s1) := disk_write 0 (fun _ => 170) 10 2 mem_ready in
  let '(r, _) := disk_read 0 zeros 10 2 s1 in
  w = RES_OK /\ fst r = RES_OK /\ snd r 0 = 170 /\ snd r 1023 = 170 /\ snd r 1024 = 0.
Proof. vm_compute. repeat split. Qed.

Example write_read_file :
  let '(w, s1) := disk_write 0 (fun _ => 170) 10 2 file_ready in
  let '(r, _) := disk_read 0 zeros 10 2 s1 in
  w = RES_OK /\ fst r = RES_OK /\ snd r 0 = 170 /\ snd r 1023 = 170 /\ snd r 1024 = 0.
Proof. vm_compute. repeat split. Qed.

(** * Properties *)

(** ** disk_ioctl *)

(** C7: on drive 0, GET_SECTOR_COUNT yields 8192 and GET_SECTOR_SIZE yields
    512 in every state (initialized or not), leaving the state as it was;
    every command code other than CTRL_SYNC, GET_SECTOR_COUNT,
    GET_SECTOR_SIZE and GET_BLOCK_SIZE yields RES_PARERR. *)
Theorem disk_ioctl_geometry (s : state) :
  disk_ioctl 0 GET_SECTOR_COUNT s = ((RES_OK, Some 8192), s) /\
  disk_ioctl 0 GET_SECTOR_SIZE s = ((RES_OK, Some 512), s) /\
  (forall cmd, cmd <> CTRL_SYNC -> cmd <> GET_SECTOR_COUNT ->
     cmd <> GET_SECTOR_SIZE -> cmd <> GET_BLOCK_SIZE ->
     disk_ioctl 0 cmd s = ((RES_PARERR, None), s)).
Proof.
  split; [reflexivity | split; [reflexivity |]].
  intros cmd H0 H1 H2 H3.
  unfold disk_ioctl, bind, get_globals, get, ret; cbn -[Z.eqb].
  apply Z.eqb_neq in H0, H1, H2, H3.
  unfold CTRL_SYNC, GET_SECTOR_COUNT, GET_SECTOR_SIZE, GET_BLOCK_SIZE in *.
  rewrite H0, H1, H2, H3. reflexivity.
Qed.

(** ** get_disk_info *)

(** C10: get_disk_info never faults and does not touch the module state;
    it stores 8192 through a non-NULL [total_sectors] (when it does not
    alias [sector_size]) and 512 through a non-NULL [sector_size], leaves
    every other cell (NULL included) as it was, and its result does not
    depend on the state it runs in. *)
Theorem get_disk_info_spec (ts ss : Z) (m : mem) (s : state) :
  exists m', get_disk_info ts ss m s = (Some m', s) /\
    (ts <> 0 -> ts <> ss -> m' ts = TOTAL_SECTORS) /\
    (ss <> 0 -> m' ss = SECTOR_SIZE) /\
    (forall a, (a <> ts \/ ts = 0) -> (a <> ss \/ ss = 0) -> m' a = m a) /\
    (forall s2, get_disk_info ts ss m s2 = (Some m', s2)).
Proof.
  unfold get_disk_info, store, ret.
  destruct (Z.eqb_spec ts 0) as [Hts | Hts]; destruct (Z.eqb_spec ss 0) as [Hss | Hss];
    cbn [negb]; eexists; (split; [reflexivity |]);
    repeat split; intros;
    repeat match goal with
           | |- context [?x =? ?y] => destruct (Z.eqb_spec x y)
           end; intuition congruence.
Qed.

(** ** Requests before initialization *)

(** C4 (as the code does it): while [disk_initialized] is 0, disk_read and
    disk_write on any drive return RES_PARERR -- the code they also return
    for an unknown drive and for a bad range -- without touching the
    caller's buffer, the backend, the trace or any other state. *)
Theorem not_initialized_parerr (s : state) (pdrv sector count : Z) (buff : bytes) :
  disk_initialized (st_g s) = 0 ->
  disk_read pdrv buff sector count s = ((RES_PARERR, buff), s) /\
  disk_write pdrv buff sector count s = (RES_PARERR, s).
Proof.
  intros H.
  cbv beta iota zeta delta [disk_read disk_write bind get_globals get ret not_ready_guard].
  rewrite H, Bool.orb_true_r. split; reflexivity.
Qed.


(** C4: the result before initialization is the very value an
    initialized drive 0 gives for an out-of-range request, and the value
    of an unknown drive: the three errors cannot be told apart. *)
Lemma not_ready_indistinct :
  fst (fst (disk_read 0 zeros 0 1 mem_fresh)) = RES_PARERR /\
  fst (fst (disk_read 0 zeros 0 1 mem_fresh)) =
    fst (fst (disk_read 0 zeros TOTAL_SECTORS 1 mem_ready)) /\
  fst (fst (disk_read 0 zeros 0 1 mem_fresh)) =
    fst (fst (disk_read 1 zeros 0 1 mem_ready)) /\
  fst (disk_write 0 zeros 0 1 mem_fresh) =
    fst (disk_write 0 zeros TOTAL_SECTORS 1 mem_ready).
Proof. repeat split; reflexivity. Qed.

(** ** The range check *)

(** C1: an initialized drive 0 accepts a zero-sector request: disk_read
    of 0 sectors at sector 0 returns RES_OK, although sectorCount > 0
    fails. *)
Lemma zero_count_accepted :
  ~ (fst (fst (disk_read 0 zeros 0 0 mem_ready)) <> RES_PARERR <->
     (0 < 0 /\ 0 < TOTAL_SECTORS /\ 0 + 0 <= TOTAL_SECTORS)).
Proof.
  assert (E : fst (fst (disk_read 0 zeros 0 0 mem_ready)) = RES_OK) by reflexivity.
  rewrite E. intros [H _]. destruct H as [H _]; [discriminate | lia].
Qed.

(** C3: sector 1 with count 2^32 - 1 is out of range (1 + count > 8192),
    yet the 32-bit sum [sector + count] wraps to 0 and passes the check.
    On a file-backed drive disk_write seeks to byte 512 and writes
    (count * 512) mod 2^32 = 2^32 - 512 bytes, growing the image to 2^32
    bytes and returning RES_OK; disk_read seeks and reads, returning
    RES_ERROR; neither returns RES_PARERR. *)
Theorem wrapped_request_accepted :
  let count := 2 ^ 32 - 1 in
  1 + count > TOTAL_SECTORS /\
  let '(w, s1) := disk_write 0 (fun _ => 255) 1 count file_ready in
  let '(r, s2) := disk_read 0 zeros 1 count file_ready in
  w = RES_OK /\
  option_map img_size (fs_image (st_h s1)) = Some (2 ^ 32) /\
  trace s1 = [Ev_fseek 0 512; Ev_fwrite 0 (2 ^ 32 - 512) (2 ^ 32 - 512); Ev_fflush 0] /\
  fst r = RES_ERROR /\
  trace s2 = [Ev_fseek 0 512; Ev_fread 0 (2 ^ 32 - 512) (DISK_BYTES - 512)].
Proof. vm_compute. repeat split; reflexivity. Qed.

(** ** Initialization *)

(** C5: on a file-backed drive whose image exists, a second
    disk_initialize(0) opens the image again: both calls succeed, the
    second FILE object replaces the first in [disk_file], and the first one
    is never closed. The image itself is not changed. *)
Theorem initialize_twice_reopens :
  let s0 := mk_state (fresh_globals 1) (host_with_image (2 ^ 40)) [] in
  let '(r1, s1) := disk_initialize 0 s0 in
  let '(r2, s2) := disk_initialize 0 s1 in
  r1 = 0 /\ r2 = 0 /\
  disk_file (st_g s1) = Some 0%nat /\ disk_file (st_g s2) = Some 1%nat /\
  open_files (st_h s2) = [1%nat; 0%nat] /\
  trace s2 = [Ev_fopen MODE_RPLUS_B true; Ev_fopen MODE_RPLUS_B true] /\
  fs_image (st_h s2) = fs_image (st_h s0).
Proof. vm_compute. repeat split; reflexivity. Qed.

(** C8: creating the image succeeds but only two sectors fit on the file
    system: disk_initialize(0) fails, the flag stays 0 and the handle is
    closed, but the 1024-byte partial image stays on the disk. *)
Lemma failed_zero_fill_leaves_file :
  let '(r, s1) := disk_initialize 0 (mk_state (fresh_globals 1) (host_empty 1024) []) in
  r = STA_NOINIT /\ disk_initialized (st_g s1) = 0 /\ disk_file (st_g s1) = None /\
  open_files (st_h s1) = [] /\
  option_map img_size (fs_image (st_h s1)) = Some 1024.
Proof. vm_compute. repeat split; reflexivity. Qed.

(** ** Working on the model *)

Ltac unfold_m :=
  cbv beta iota zeta delta [bind ret get modify emit modify_host set_virtual_disk
    set_disk_initialized set_disk_file get_globals with_image_pos].

Ltac unfold_m_in H :=
  cbv beta iota zeta delta [bind ret get modify emit modify_host set_virtual_disk
    set_disk_initialized set_disk_file get_globals with_image_pos] in H.

(** The 32-bit sum [sector + count] is exact when it does not wrap. *)
Lemma range_guard_no_wrap (sector count : Z) :
  is_u32 sector -> is_u32 count -> sector + count < 2 ^ 32 ->
  range_guard sector count = negb ((sector <? TOTAL_SECTORS) && (sector + count <=? TOTAL_SECTORS)).
Proof.
  intros Hs Hc Hsum. unfold range_guard, wrap32, is_u32 in *.
  rewrite Z.mod_small by lia.
  destruct (Z.leb_spec TOTAL_SECTORS sector), (Z.ltb_spec sector TOTAL_SECTORS),
    (Z.ltb_spec TOTAL_SECTORS (sector + count)), (Z.leb_spec (sector + count) TOTAL_SECTORS);
    cbn; try reflexivity; lia.
Qed.

(** A range inside the disk passes the check; its byte offset and length
    do not wrap. *)
Lemma in_range_guard (start count : Z) :
  0 <= start -> 0 <= count -> start + count <= TOTAL_SECTORS -> start < TOTAL_SECTORS ->
  range_guard start count = false /\
  wrap32 (start * SECTOR_SIZE) = start * SECTOR_SIZE /\
  wrap32 (count * SECTOR_SIZE) = count * SECTOR_SIZE.
Proof.
  intros. unfold TOTAL_SECTORS, SECTOR_SIZE in *.
  rewrite range_guard_no_wrap by (unfold is_u32; lia).
  unfold wrap32. rewrite !Z.mod_small by lia.
  split; [| split; reflexivity].
  unfold TOTAL_SECTORS.
  rewrite (proj2 (Z.ltb_lt start 8192)) by lia.
  rewrite (proj2 (Z.leb_le (start + count) 8192)) by lia. reflexivity.
Qed.

Ltac zcase :=
  repeat match goal with
         | |- context [Z.leb ?x ?y] => destruct (Z.leb_spec x y)
         | |- context [Z.ltb ?x ?y] => destruct (Z.ltb_spec x y)
         | |- context [Z.eqb ?x ?y] => destruct (Z.eqb_spec x y)
         end; cbn [andb orb negb].

(** C2: on an initialized drive 0, for every range with count > 0 and
    start + count <= 8192, a disk_write of the bytes B followed by a
    disk_read of the same range gives back exactly B, for both backends:
    disk_write answers RES_OK, disk_read answers RES_OK and the buffer it
    fills holds B. For the file backend this needs room on the file system
    for the image to reach the end of the range (a full-size image always
    has it). *)
Theorem write_then_read (s : state) (start count : Z) (B buff : bytes) :
  ready s -> 0 <= start -> 0 < count -> start + count <= TOTAL_SECTORS ->
  (use_file_backend (st_g s) <> 0 -> (start + count) * SECTOR_SIZE <= fs_capacity (st_h s)) ->
  let '(w, s1) := disk_write 0 B start count s in
  w = RES_OK /\
  (let '(r, s2) := disk_read 0 buff start count s1 in
   fst r = RES_OK /\ forall i, 0 <= i < count * SECTOR_SIZE -> snd r i = B i).
Proof.
  intros [Hi [Hf Hm]] H0 Hc Hend Hcap.
  destruct (in_range_guard start count) as [Hg [Ho Hn]]; try lia.
  destruct s as [[vd di df u] H tr]; cbn in Hi, Hf, Hm, Hcap |- *.
  apply Z.eqb_neq in Hi.
  unfold disk_write, disk_read, not_ready_guard, file_branch. unfold_m.
  destruct (Z.eqb_spec u 0) as [Hu | Hu].
  - destruct vd as [v |]; [| exfalso; now apply Hm].
    apply Z.eqb_eq in Hu.
    unfold memcpy; unfold_m; cbn; rewrite ?Hi, ?Hg, ?Ho, ?Hn, ?Hu; cbn.
    rewrite ?Hi, ?Hg, ?Ho, ?Hn, ?Hu; cbn.
    split; [reflexivity |]. split; [reflexivity |].
    intros i Hi'. zcase; try lia; f_equal; lia.
  - destruct (Hf Hu) as [Hdf Himg]. specialize (Hcap Hu).
    apply Z.eqb_neq in Hu.
    destruct df as [h |]; [| congruence].
    destruct H as [img cc cap ho nh ofs fp]; cbn in Himg, Hcap |- *.
    destruct img as [img |]; [| congruence].
    assert (Hoff : (start * SECTOR_SIZE <? 0) = false)
      by (apply Z.ltb_ge; unfold SECTOR_SIZE; lia).
    unfold fseek, fwrite, fflush, fread; unfold_m; cbn; rewrite ?Hi, ?Hg, ?Ho, ?Hn, ?Hu, ?Hoff; cbn.
    unfold upd; rewrite !Nat.eqb_refl; cbn.
    set (kk := Z.max 0 (Z.min (count * SECTOR_SIZE) (cap - start * SECTOR_SIZE))).
    assert (Hk : kk = count * SECTOR_SIZE) by (unfold kk, SECTOR_SIZE in *; lia).
    assert (Hk0 : (kk =? 0) = false) by (apply Z.eqb_neq; unfold SECTOR_SIZE in *; lia).
    rewrite Hk0. cbn. rewrite Hk, Z.eqb_refl. cbn.
    rewrite ?Hi, ?Hg, ?Ho, ?Hn, ?Hu, ?Hoff; cbn. rewrite !Nat.eqb_refl; cbn.
    assert (Hr : Z.max 0 (Z.min (count * SECTOR_SIZE)
                   (Z.max (img_size img) (start * SECTOR_SIZE + count * SECTOR_SIZE)
                    - start * SECTOR_SIZE)) = count * SECTOR_SIZE)
      by (unfold SECTOR_SIZE; lia).
    rewrite Hr, Z.eqb_refl. cbn.
    split; [reflexivity |]. split; [reflexivity |].
    intros i Hi'. zcase; try lia; f_equal; lia.
Qed.

(** Past the two guards, disk_read never answers RES_PARERR. *)
Lemma disk_read_passed_not_parerr (s : state) (buff : bytes) (sector count : Z) :
  disk_initialized (st_g s) <> 0 -> range_guard sector count = false ->
  fst (fst (disk_read 0 buff sector count s)) <> RES_PARERR.
Proof.
  intros Hi Hr. destruct s as [[vd di df u] H tr]; cbn in Hi.
  unfold disk_read, not_ready_guard. unfold_m. cbn [st_g disk_initialized].
  rewrite (proj2 (Z.eqb_neq di 0) Hi), Hr. cbn [negb orb Z.eqb].
  unfold file_branch, fseek, fread, memcpy; unfold_m;
    cbn [st_g st_h use_file_backend disk_file virtual_disk].
  repeat match goal with
         | |- context [match ?x with _ => _ end] => destruct x
         | |- context [if ?b then _ else _] => destruct b
         end; cbn; discriminate.
Qed.

(** Past the two guards, disk_write never answers RES_PARERR. *)
Lemma disk_write_passed_not_parerr (s : state) (buff : bytes) (sector count : Z) :
  disk_initialized (st_g s) <> 0 -> range_guard sector count = false ->
  fst (disk_write 0 buff sector count s) <> RES_PARERR.
Proof.
  intros Hi Hr. destruct s as [[vd di df u] H tr]; cbn in Hi.
  unfold disk_write, not_ready_guard. unfold_m. cbn [st_g disk_initialized].
  rewrite (proj2 (Z.eqb_neq di 0) Hi), Hr. cbn [negb orb Z.eqb].
  unfold file_branch, fseek, fwrite, fflush, memcpy; unfold_m;
    cbn [st_g st_h use_file_backend disk_file virtual_disk].
  repeat match goal with
         | |- context [match ?x with _ => _ end] => destruct x
         | |- context [if ?b then _ else _] => destruct b
         end; cbn; discriminate.
Qed.

(** A request failing the range check is answered RES_PARERR. *)
Lemma range_rejected (s : state) (pdrv sector count : Z) (buff : bytes) :
  range_guard sector count = true ->
  fst (fst (disk_read pdrv buff sector count s)) = RES_PARERR /\
  fst (disk_write pdrv buff sector count s) = RES_PARERR.
Proof.
  intros Hr. unfold disk_read, disk_write. unfold_m. rewrite Hr.
  destruct (not_ready_guard (st_g s) pdrv); split; reflexivity.
Qed.

(** C1 (as the code does it): on an initialized drive 0, for 32-bit
    [sector] and [count] whose sum does not wrap, disk_read and disk_write
    pass the request on (answer something other than RES_PARERR) exactly
    when sector < 8192 and sector + count <= 8192; a zero count is not
    refused. *)
Theorem range_check_no_wrap (s : state) (sector count : Z) (buff : bytes) :
  disk_initialized (st_g s) <> 0 -> is_u32 sector -> is_u32 count ->
  sector + count < 2 ^ 32 ->
  (fst (fst (disk_read 0 buff sector count s)) <> RES_PARERR <->
     sector < TOTAL_SECTORS /\ sector + count <= TOTAL_SECTORS) /\
  (fst (disk_write 0 buff sector count s) <> RES_PARERR <->
     sector < TOTAL_SECTORS /\ sector + count <= TOTAL_SECTORS).
Proof.
  intros Hi Hs Hc Hsum.
  pose proof (range_guard_no_wrap sector count Hs Hc Hsum) as Hg.
  destruct (Z.ltb_spec sector TOTAL_SECTORS) as [H1 | H1];
    destruct (Z.leb_spec (sector + count) TOTAL_SECTORS) as [H2 | H2];
    cbn [andb negb] in Hg.
  - split; (split; [intros _; auto |]); intros _.
    + now apply disk_read_passed_not_parerr.
    + now apply disk_write_passed_not_parerr.
  - destruct (range_rejected s 0 sector count buff Hg) as [R W].
    rewrite R, W. split; split; (intros X; exfalso; apply X; reflexivity) || lia.
  - destruct (range_rejected s 0 sector count buff Hg) as [R W].
    rewrite R, W. split; split; (intros X; exfalso; apply X; reflexivity) || lia.
  - destruct (range_rejected s 0 sector count buff Hg) as [R W].
    rewrite R, W. split; split; (intros X; exfalso; apply X; reflexivity) || lia.
Qed.

(** C9: on an initialized drive 0, a request of zero sectors at any
    sector below 8192 is accepted: disk_read and disk_write answer RES_OK,
    the caller's buffer is not written, and the module's globals, the
    memory disk and the image file are as they were (only the file
    position and the call trace of the file backend move). *)
Theorem zero_count_noop (s : state) (sector : Z) (buff B : bytes) :
  ready s -> 0 <= sector < TOTAL_SECTORS ->
  let '(r, s1) := disk_read 0 buff sector 0 s in
  let '(w, s2) := disk_write 0 B sector 0 s in
  r = (RES_OK, buff) /\ st_g s1 = st_g s /\ fs_image (st_h s1) = fs_image (st_h s) /\
  w = RES_OK /\ st_g s2 = st_g s /\ fs_image (st_h s2) = fs_image (st_h s).
Proof.
  intros [Hi [Hf Hm]] Hsec.
  destruct (in_range_guard sector 0) as [Hg [Ho Hn]]; try lia.
  assert (Hz : forall x, Z.max 0 (Z.min (0 * SECTOR_SIZE) x) = 0) by (intros; lia).
  assert (Hoff : (sector * SECTOR_SIZE <? 0) = false)
    by (apply Z.ltb_ge; unfold SECTOR_SIZE; lia).
  destruct s as [[vd di df u] H tr]; cbn in Hi, Hf, Hm |- *.
  apply Z.eqb_neq in Hi.
  unfold disk_write, disk_read, not_ready_guard, file_branch. unfold_m.
  destruct (Z.eqb_spec u 0) as [Hu | Hu].
  - destruct vd as [v |]; [| exfalso; now apply Hm].
    apply Z.eqb_eq in Hu.
    unfold memcpy; unfold_m; cbn; rewrite ?Hi, ?Hg, ?Ho, ?Hn, ?Hu; cbn.
    repeat split.
    + f_equal. apply functional_extensionality. intros i. zcase; try lia; reflexivity.
    + do 2 f_equal. apply functional_extensionality. intros i. zcase; try lia; reflexivity.
  - destruct (Hf Hu) as [Hdf Himg].
    apply Z.eqb_neq in Hu.
    destruct df as [h |]; [| congruence].
    destruct H as [img cc cap ho nh ofs fp]; cbn in Himg |- *.
    destruct img as [img |]; [| congruence].
    unfold fseek, fwrite, fflush, fread; unfold_m; cbn;
      rewrite ?Hi, ?Hg, ?Ho, ?Hn, ?Hu, ?Hoff; cbn.
    rewrite !Hz; cbn.
    repeat split.
    f_equal. apply functional_extensionality. intros i. zcase; try lia; reflexivity.
Qed.

(** ** The zero-fill loop of init_virtual_disk *)

(** Every pass of the loop only appends to the image: the globals and the
    set of open FILE objects are left alone. *)
Lemma zero_fill_frame (h : nat) (n : nat) : forall s,
  st_g (snd (zero_fill h n s)) = st_g s /\
  open_files (st_h (snd (zero_fill h n s))) = open_files (st_h s) /\
  next_handle (st_h (snd (zero_fill h n s))) = next_handle (st_h s).
Proof.
  induction n as [| n IH]; intros s; [cbn; auto |].
  cbn [zero_fill]. unfold fwrite. unfold_m.
  destruct s as [g H tr]; cbn.
  destruct (fs_image H) as [img |]; cbn; [| auto].
  destruct (Z.max 0 (Z.min SECTOR_SIZE (fs_capacity H - fpos H h)) =? 0); cbn;
    match goal with
    | |- context [if negb ?b then _ else _] => destruct b
    end; cbn; auto;
    match goal with
    | |- context [zero_fill h n ?s1] => destruct (IH s1) as (A & B & C); rewrite A, B, C
    end; auto.
Qed.

(** A loop that reports success wrote all its sectors, each a zero sector
    of SECTOR_SIZE bytes appended at the end of the file. *)
Lemma zero_fill_true (h : nat) (n : nat) : forall s s' sz d,
  fs_image (st_h s) = Some (mk_image sz d) -> fpos (st_h s) h = sz -> 0 <= sz ->
  (forall j, 0 <= j < sz -> d j = 0) ->
  zero_fill h n s = (true, s') ->
  exists d', fs_image (st_h s') = Some (mk_image (sz + SECTOR_SIZE * Z.of_nat n) d') /\
    (forall j, 0 <= j < sz + SECTOR_SIZE * Z.of_nat n -> d' j = 0) /\
    fpos (st_h s') h = sz + SECTOR_SIZE * Z.of_nat n /\
    trace s' = trace s ++ repeat (Ev_fwrite h SECTOR_SIZE SECTOR_SIZE) n.
Proof.
  induction n as [| n IH]; intros s s' sz d Himg Hpos Hsz Hz Hrun.
  - cbn in Hrun. injection Hrun as <-. exists d.
    rewrite Z.mul_0_r, Z.add_0_r, app_nil_r. auto.
  - cbn [zero_fill] in Hrun. unfold fwrite in Hrun. unfold_m_in Hrun.
    destruct s as [g H tr]; cbn in Himg, Hpos, Hrun; cbn [st_h st_g trace].
    rewrite Himg, Hpos in Hrun. cbn in Hrun.
    destruct (Z.eqb_spec (Z.max 0 (Z.min SECTOR_SIZE (fs_capacity H - sz))) SECTOR_SIZE)
      as [Hk | Hk].
    + rewrite Hk in Hrun. cbn in Hrun.
      assert (Hmax : Z.max sz (sz + SECTOR_SIZE) = sz + SECTOR_SIZE)
        by (unfold SECTOR_SIZE; lia).
      unfold write_image in Hrun; cbn [img_size img_data] in Hrun; rewrite Hmax in Hrun.
      eapply IH in Hrun.
      2: reflexivity.
      2: cbn; unfold upd; rewrite Nat.eqb_refl; reflexivity.
      2: unfold SECTOR_SIZE; lia.
      2: intros j Hj; cbn; zcase; try lia; auto; apply Hz; lia.
      destruct Hrun as (d' & I1 & I2 & I3 & I4).
      exists d'. rewrite Nat2Z.inj_succ.
      replace (sz + SECTOR_SIZE * Z.succ (Z.of_nat n))
        with (sz + SECTOR_SIZE + SECTOR_SIZE * Z.of_nat n) by lia.
      repeat split; auto.
      rewrite I4. cbn. rewrite <- app_assoc. reflexivity.
    + destruct (Z.max 0 (Z.min SECTOR_SIZE (fs_capacity H - sz)) =? 0); cbn in Hrun;
        rewrite (proj2 (Z.eqb_neq _ _) Hk) in Hrun; cbn in Hrun; discriminate.
Qed.

(** With room for all its sectors, the loop succeeds. *)
Lemma zero_fill_room (h : nat) (n : nat) : forall s sz d,
  fs_image (st_h s) = Some (mk_image sz d) -> fpos (st_h s) h = sz ->
  sz + SECTOR_SIZE * Z.of_nat n <= fs_capacity (st_h s) ->
  fst (zero_fill h n s) = true.
Proof.
  induction n as [| n IH]; intros s sz d Himg Hpos Hcap; [reflexivity |].
  cbn [zero_fill]. unfold fwrite. unfold_m.
  destruct s as [g H tr]; cbn in Himg, Hpos |- *; cbn [st_h] in Hcap.
  rewrite Himg, Hpos. cbn.
  rewrite Nat2Z.inj_succ in Hcap.
  assert (Hk : Z.max 0 (Z.min SECTOR_SIZE (fs_capacity H - sz)) = SECTOR_SIZE)
    by (unfold SECTOR_SIZE in *; lia).
  rewrite Hk. cbn.
  assert (Hmax : Z.max sz (sz + SECTOR_SIZE) = sz + SECTOR_SIZE)
    by (unfold SECTOR_SIZE; lia).
  unfold write_image; cbn [img_size img_data]; rewrite Hmax.
  eapply (IH _ (sz + SECTOR_SIZE)).
  - reflexivity.
  - cbn. unfold upd. rewrite Nat.eqb_refl. reflexivity.
  - cbn [st_h fs_capacity]. lia.
Qed.

(** The loop never takes the image file away: once it exists it is still
    there when the loop stops, however far it got. *)
Lemma zero_fill_keeps_image (h : nat) (n : nat) : forall s,
  fs_image (st_h s) <> None -> fs_image (st_h (snd (zero_fill h n s))) <> None.
Proof.
  induction n as [| n IH]; intros s Hs; [exact Hs |].
  cbn [zero_fill]. unfold fwrite. unfold_m.
  destruct s as [g H tr]; cbn in Hs |- *.
  destruct (fs_image H) as [img |] eqn:Ei; [| congruence]. cbn.
  destruct (Z.max 0 (Z.min SECTOR_SIZE (fs_capacity H - fpos H h)) =? 0); cbn;
    match goal with
    | |- context [if negb ?b then _ else _] => destruct b
    end; cbn; try (rewrite Ei; discriminate); try discriminate;
    apply IH; cbn; try rewrite Ei; discriminate.
Qed.

(** ** Initialization of the file backend *)

(** The run of disk_initialize(0) on a file-backed drive without an image,
    when the image can be created and the file system has room for it. *)
Lemma initialize_zero_image_run (s : state) :
  use_file_backend (st_g s) <> 0 -> fs_image (st_h s) = None ->
  fs_can_create (st_h s) = true -> DISK_BYTES <= fs_capacity (st_h s) ->
  let '(r, s') := disk_initialize 0 s in
  r = 0 /\
  ((exists d, fs_image (st_h s') = Some (mk_image DISK_BYTES d) /\
              forall j, 0 <= j < DISK_BYTES -> d j = 0) /\
   trace s' = trace s ++ [Ev_fopen MODE_RPLUS_B false; Ev_fopen MODE_WPLUS_B true] ++
              repeat (Ev_fwrite (next_handle (st_h s)) SECTOR_SIZE SECTOR_SIZE)
                (Z.to_nat TOTAL_SECTORS) ++
              [Ev_fflush (next_handle (st_h s))] /\
   disk_initialized (st_g s') = 1 /\ disk_status 0 s' = (0, s') /\ ready s').
Proof.
  intros Hu Hnone Hcc Hcap.
  destruct s as [[vd di df u] H tr]; cbn in Hu, Hnone, Hcc, Hcap |- *.
  apply Z.eqb_neq in Hu.
  unfold disk_initialize, init_virtual_disk, fopen. unfold_m.
  cbn -[zero_fill Z.to_nat TOTAL_SECTORS DISK_BYTES]. rewrite Hu.
  cbn -[zero_fill Z.to_nat TOTAL_SECTORS DISK_BYTES]. rewrite Hnone.
  cbn -[zero_fill Z.to_nat TOTAL_SECTORS DISK_BYTES]. rewrite Hcc.
  cbn -[zero_fill Z.to_nat TOTAL_SECTORS DISK_BYTES].
  match goal with
  | |- context [zero_fill ?h ?n ?s1] =>
      pose proof (zero_fill_frame h n s1) as Fr;
      pose proof (zero_fill_room h n s1 0 zeros eq_refl) as Room;
      pose proof (zero_fill_true h n s1) as Tru;
      destruct (zero_fill h n s1) as [ok s2] eqn:Ez
  end.
  cbn [fst snd] in Fr, Room.
  assert (Hp : (if (next_handle H =? next_handle H)%nat then 0 else fpos H (next_handle H)) = 0)
    by (rewrite Nat.eqb_refl; reflexivity).
  assert (Hn : 0 + SECTOR_SIZE * Z.of_nat (Z.to_nat TOTAL_SECTORS) = DISK_BYTES)
    by (rewrite Z2Nat.id by (unfold TOTAL_SECTORS; lia); reflexivity).
  destruct ok; cbn -[zero_fill Z.to_nat TOTAL_SECTORS DISK_BYTES].
  - split; [reflexivity |].
    destruct (Tru s2 0 zeros eq_refl Hp ltac:(lia) ltac:(reflexivity) eq_refl)
      as (d & I1 & I2 & I3 & I4).
    destruct Fr as (G & _ & _). rewrite Hn in I1, I2.
    rewrite G. cbn. repeat split.
    + exists d. split; assumption.
    + rewrite I4. cbn. rewrite <- !app_assoc. reflexivity.
    + cbn. discriminate.
    + cbn. discriminate.
    + cbn. rewrite I1. discriminate.
    + cbn. intros X. rewrite X in Hu. cbn in Hu. discriminate.
  - exfalso. rewrite Hn in Room. specialize (Room Hp Hcap). discriminate.
Qed.

(** The runs of disk_initialize(0) on a file-backed drive not yet
    initialized that do not end in success. *)
Lemma initialize_failure_run (s : state) :
  use_file_backend (st_g s) <> 0 -> disk_initialized (st_g s) = 0 ->
  host_wf (st_h s) ->
  let '(r, s') := disk_initialize 0 s in
  (fs_image (st_h s) = None -> fs_can_create (st_h s) = false ->
   r = STA_NOINIT /\ disk_initialized (st_g s') = 0 /\ disk_file (st_g s') = None /\
   st_h s' = st_h s) /\
  (r <> 0 ->
   r = STA_NOINIT /\ disk_initialized (st_g s') = 0 /\
   disk_status 0 s' = (STA_NOINIT, s') /\
   disk_file (st_g s') = None /\ open_files (st_h s') = open_files (st_h s)) /\
  (fs_image (st_h s) = None -> fs_can_create (st_h s) = true -> r <> 0 ->
   fs_image (st_h s') <> None).
Proof.
  intros Hu Hi Hwf.
  destruct s as [[vd di df u] H tr]; cbn in Hu, Hi, Hwf |- *. subst di.
  apply Z.eqb_neq in Hu.
  unfold disk_initialize, init_virtual_disk, fopen. unfold_m.
  cbn -[zero_fill Z.to_nat TOTAL_SECTORS]. rewrite Hu.
  cbn -[zero_fill Z.to_nat TOTAL_SECTORS].
  destruct (fs_image H) as [img |] eqn:Himg;
    cbn -[zero_fill Z.to_nat TOTAL_SECTORS].
  { split; [discriminate |]. split; [intros X; exfalso; apply X; reflexivity | discriminate]. }
  destruct (fs_can_create H) eqn:Hcc;
    cbn -[zero_fill Z.to_nat TOTAL_SECTORS].
  2: { split; [intros _ _; repeat split |]. split; [intros _; repeat split | discriminate]. }
  match goal with
  | |- context [zero_fill ?h ?n ?s1] =>
      pose proof (zero_fill_frame h n s1) as Fr;
      pose proof (zero_fill_keeps_image h n s1) as Keep;
      destruct (zero_fill h n s1) as [ok s2] eqn:Ez
  end.
  cbn [fst snd] in Fr, Keep. destruct Fr as (G & O & _).
  destruct ok; cbn -[zero_fill Z.to_nat TOTAL_SECTORS].
  { split; [discriminate |]. split; intros; exfalso; auto. }
  split; [discriminate |]. split.
  - intros _. rewrite G. cbn. repeat split.
    rewrite O. cbn.
    destruct (Nat.eq_dec (next_handle H) (next_handle H)) as [_ | C]; [| now contradiction C].
    apply notin_remove.
    intros Hin. apply Hwf in Hin. lia.
  - intros _ _ _. cbn. apply Keep. cbn. discriminate.
Qed.

(** C6: with the file backend, when the image file does not exist but
    can be created and the file system has room for the whole image,
    disk_initialize(0) tries "r+b", creates the file with "w+b", writes
    TOTAL_SECTORS zero sectors of SECTOR_SIZE bytes one after the other and
    flushes, with no other call in between; it returns 0, the image is
    exactly TOTAL_SECTORS * SECTOR_SIZE bytes, all zero, and the drive is
    initialized and ready. *)
Theorem initialize_creates_zero_image (s : state) (r : DSTATUS) (s' : state) :
  use_file_backend (st_g s) <> 0 -> fs_image (st_h s) = None ->
  fs_can_create (st_h s) = true -> DISK_BYTES <= fs_capacity (st_h s) ->
  disk_initialize 0 s = (r, s') ->
  r = 0 /\
  (exists d, fs_image (st_h s') = Some (mk_image DISK_BYTES d) /\
             forall j, 0 <= j < DISK_BYTES -> d j = 0) /\
  trace s' = trace s ++ [Ev_fopen MODE_RPLUS_B false; Ev_fopen MODE_WPLUS_B true] ++
             repeat (Ev_fwrite (next_handle (st_h s)) SECTOR_SIZE SECTOR_SIZE)
               (Z.to_nat TOTAL_SECTORS) ++
             [Ev_fflush (next_handle (st_h s))] /\
  disk_initialized (st_g s') = 1 /\ disk_status 0 s' = (0, s') /\ ready s'.
Proof.
  intros H1 H2 H3 H4 E. pose proof (initialize_zero_image_run s H1 H2 H3 H4) as A.
  rewrite E in A. destruct A as [R A]. exact (conj R A).
Qed.

(** C8 (as the code does it): with the file backend, on a drive not yet
    initialized:
    - when the image does not exist and cannot be created, disk_initialize(0)
      returns STA_NOINIT, the drive stays uninitialized, [disk_file] is NULL
      and the host is untouched (no FILE object open, no file made);
    - whenever disk_initialize(0) reports failure, the drive is not ready,
      [disk_file] is NULL and every FILE object it opened has been closed
      again;
    - an image file it created is never removed: after a failed zero fill
      the partially written file is still on the file system (see also
      [failed_zero_fill_leaves_file]). *)
Theorem initialize_failure_closes (s : state) (r : DSTATUS) (s' : state) :
  use_file_backend (st_g s) <> 0 -> disk_initialized (st_g s) = 0 ->
  host_wf (st_h s) ->
  disk_initialize 0 s = (r, s') ->
  (fs_image (st_h s) = None -> fs_can_create (st_h s) = false ->
   r = STA_NOINIT /\ disk_initialized (st_g s') = 0 /\ disk_file (st_g s') = None /\
   st_h s' = st_h s) /\
  (r <> 0 ->
   r = STA_NOINIT /\ disk_initialized (st_g s') = 0 /\
   disk_status 0 s' = (STA_NOINIT, s') /\
   disk_file (st_g s') = None /\ open_files (st_h s') = open_files (st_h s)) /\
  (fs_image (st_h s) = None -> fs_can_create (st_h s) = true -> r <> 0 ->
   fs_image (st_h s') <> None).
Proof.
  intros H1 H2 H3 E. pose proof (initialize_failure_run s H1 H2 H3) as A.
  rewrite E in A. exact A.
Qed.

(** The memory branch of init_virtual_disk guards its allocation with
    [if (!virtual_disk)]: on an initialized memory-backed drive a second
    disk_initialize(0) changes nothing at all. The file branch has no such
    guard (see [initialize_twice_reopens]). *)
Lemma initialize_again_memory (s : state) :
  use_file_backend (st_g s) = 0 -> virtual_disk (st_g s) <> None ->
  disk_initialized (st_g s) = 1 ->
  disk_initialize 0 s = (0, s).
Proof.
  intros Hu Hv Hi.
  destruct s as [[vd di df u] H tr]; cbn in Hu, Hv, Hi. subst u di.
  destruct vd as [v |]; [| congruence].
  reflexivity.
Qed.

(** ** The operations on each backend, one equation each *)

(** With the file backend and an existing image, disk_initialize(0) opens
    the image "r+b" and sets the flag. *)
Lemma initialize_existing_image (g : globals) (H : host) (tr : list event) (img : image) :
  use_file_backend g <> 0 -> fs_image H = Some img ->
  disk_initialize 0 (mk_state g H tr) =
  (0, mk_state (mk_globals (virtual_disk g) 1 (Some (next_handle H)) (use_file_backend g))
        (mk_host (Some img) (fs_can_create H) (fs_capacity H) (heap_ok H)
           (S (next_handle H)) (next_handle H :: open_files H)
           (upd (fpos H) (next_handle H) 0))
        (tr ++ [Ev_fopen MODE_RPLUS_B true])).
Proof.
  intros Hu Himg. destruct g as [vd di df u]; cbn in Hu.
  destruct H as [im cc cap ho nh ofs fp]; cbn in Himg. subst im.
  unfold disk_initialize, init_virtual_disk, fopen. unfold_m. cbn.
  rewrite (proj2 (Z.eqb_neq u 0) Hu). cbn. reflexivity.
Qed.

(** With the memory backend and no buffer yet, disk_initialize(0)
    allocates it with calloc. *)
Lemma initialize_memory_fresh (g : globals) (H : host) (tr : list event) :
  use_file_backend g = 0 -> virtual_disk g = None ->
  disk_initialize 0 (mk_state g H tr) =
  if heap_ok H then
    (0, mk_state (mk_globals (Some zeros) 1 (disk_file g) 0) H
          (tr ++ [Ev_calloc (TOTAL_SECTORS * SECTOR_SIZE) true]))
  else
    (STA_NOINIT, mk_state (mk_globals None (disk_initialized g) (disk_file g) 0) H
          (tr ++ [Ev_calloc (TOTAL_SECTORS * SECTOR_SIZE) false])).
Proof.
  intros Hu Hv. destruct g as [vd di df u]; cbn in Hu, Hv. subst u vd.
  unfold disk_initialize, init_virtual_disk, calloc. unfold_m. cbn.
  destruct (heap_ok H); reflexivity.
Qed.

(** cleanup_virtual_disk closes [disk_file], drops the buffer and clears
    the flag. *)
Lemma cleanup_eq (g : globals) (H : host) (tr : list event) :
  cleanup_virtual_disk (mk_state g H tr) =
  (tt, mk_state (fresh_globals (use_file_backend g))
         (match disk_file g with
          | Some h => mk_host (fs_image H) (fs_can_create H) (fs_capacity H) (heap_ok H)
                        (next_handle H) (remove Nat.eq_dec h (open_files H)) (fpos H)
          | None => H
          end)
         (tr ++ match disk_file g with Some h => [Ev_fclose h] | None => [] end)).
Proof.
  destruct g as [vd di df u].
  unfold cleanup_virtual_disk, fclose. unfold_m.
  destruct df as [h |], vd as [v |]; cbn; rewrite ?app_nil_r; reflexivity.
Qed.

(** A write inside the disk on the file backend, with room for it. *)
Lemma disk_write_file (g : globals) (H : host) (tr : list event) (h : nat) (img : image)
    (start count : Z) (B : bytes) :
  disk_initialized g <> 0 -> use_file_backend g <> 0 -> disk_file g = Some h ->
  fs_image H = Some img ->
  0 <= start -> 0 < count -> start + count <= TOTAL_SECTORS ->
  (start + count) * SECTOR_SIZE <= fs_capacity H ->
  exists p, disk_write 0 B start count (mk_state g H tr) =
    (RES_OK, mk_state g
       (with_image_pos H (Some (write_image img (start * SECTOR_SIZE) B (count * SECTOR_SIZE))) p)
       (tr ++ [Ev_fseek h (start * SECTOR_SIZE);
               Ev_fwrite h (count * SECTOR_SIZE) (count * SECTOR_SIZE); Ev_fflush h])).
Proof.
  intros Hi Hu Hdf Himg H0 Hc Hend Hcap.
  destruct (in_range_guard start count) as [Hg [Ho Hn]]; try lia.
  destruct g as [vd di df u]; cbn in Hi, Hu, Hdf. subst df.
  destruct H as [im cc cap ho nh ofs fp]; cbn in Himg, Hcap. subst im.
  assert (Hoff : (start * SECTOR_SIZE <? 0) = false)
    by (apply Z.ltb_ge; unfold SECTOR_SIZE; lia).
  assert (Hk : Z.max 0 (Z.min (count * SECTOR_SIZE) (cap - start * SECTOR_SIZE))
               = count * SECTOR_SIZE) by (unfold SECTOR_SIZE in *; lia).
  assert (Hk0 : (count * SECTOR_SIZE =? 0) = false)
    by (apply Z.eqb_neq; unfold SECTOR_SIZE; lia).
  unfold disk_write, not_ready_guard, file_branch, fseek, fwrite, fflush. unfold_m. cbn.
  rewrite (proj2 (Z.eqb_neq di 0) Hi), (proj2 (Z.eqb_neq u 0) Hu), Hg, Ho, Hn, Hoff. cbn.
  assert (Hp : upd fp h (start * SECTOR_SIZE) h = start * SECTOR_SIZE)
    by (unfold upd; now rewrite Nat.eqb_refl).
  rewrite Hp, Hk, Hk0. cbn. rewrite Z.eqb_refl. cbn.
  rewrite <- !app_assoc. eexists. reflexivity.
Qed.

(** A write inside the disk on the memory backend. *)
Lemma disk_write_memory (g : globals) (H : host) (tr : list event) (vd : bytes)
    (start count : Z) (B : bytes) :
  disk_initialized g <> 0 -> use_file_backend g = 0 -> virtual_disk g = Some vd ->
  0 <= start -> 0 <= count -> start + count <= TOTAL_SECTORS -> start < TOTAL_SECTORS ->
  disk_write 0 B start count (mk_state g H tr) =
  (RES_OK, mk_state
     (mk_globals (Some (fun i => if (start * SECTOR_SIZE <=? i) &&
                                    (i <? start * SECTOR_SIZE + count * SECTOR_SIZE)
                                 then B (0 + (i - start * SECTOR_SIZE)) else vd i))
        (disk_initialized g) (disk_file g) 0)
     H (tr ++ [Ev_memcpy (count * SECTOR_SIZE)])).
Proof.
  intros Hi Hu Hv H0 Hc Hend Hs.
  destruct (in_range_guard start count) as [Hg [Ho Hn]]; try lia.
  destruct g as [vd0 di df u]; cbn in Hi, Hu, Hv. subst u vd0.
  unfold disk_write, not_ready_guard, file_branch, memcpy. unfold_m. cbn.
  rewrite (proj2 (Z.eqb_neq di 0) Hi), Hg, Ho, Hn. cbn. reflexivity.
Qed.

(** A read inside the disk on the file backend: [k] bytes are read, the
    request succeeds when all of them are there. *)
Lemma disk_read_file (g : globals) (H : host) (tr : list event) (h : nat) (img : image)
    (start count : Z) (buff : bytes) :
  disk_initialized g <> 0 -> use_file_backend g <> 0 -> disk_file g = Some h ->
  fs_image H = Some img ->
  0 <= start -> 0 <= count -> start + count <= TOTAL_SECTORS -> start < TOTAL_SECTORS ->
  let off := start * SECTOR_SIZE in
  let n := count * SECTOR_SIZE in
  let k := Z.max 0 (Z.min n (img_size img - off)) in
  exists p, disk_read 0 buff start count (mk_state g H tr) =
    ((if k =? n then RES_OK else RES_ERROR,
      fun i => if (0 <=? i) && (i <? k) then img_data img (off + i) else buff i),
     mk_state g (with_image_pos H (Some img) p) (tr ++ [Ev_fseek h off; Ev_fread h n k])).
Proof.
  intros Hi Hu Hdf Himg H0 Hc Hend Hs off n k.
  destruct (in_range_guard start count) as [Hg [Ho Hn]]; try lia.
  destruct g as [vd di df u]; cbn in Hi, Hu, Hdf. subst df.
  destruct H as [im cc cap ho nh ofs fp]; cbn in Himg. subst im.
  assert (Hoff : (start * SECTOR_SIZE <? 0) = false)
    by (apply Z.ltb_ge; unfold SECTOR_SIZE; lia).
  unfold disk_read, not_ready_guard, file_branch, fseek, fread. unfold_m. cbn.
  rewrite (proj2 (Z.eqb_neq di 0) Hi), (proj2 (Z.eqb_neq u 0) Hu), Hg, Ho, Hn, Hoff. cbn.
  assert (Hp : upd fp h (start * SECTOR_SIZE) h = start * SECTOR_SIZE)
    by (unfold upd; now rewrite Nat.eqb_refl).
  rewrite Hp. subst off n k. rewrite <- !app_assoc.
  destruct (Z.eqb _ _); cbn; eexists; reflexivity.
Qed.

(** A read inside the disk on the memory backend. *)
Lemma disk_read_memory (g : globals) (H : host) (tr : list event) (vd : bytes)
    (start count : Z) (buff : bytes) :
  disk_initialized g <> 0 -> use_file_backend g = 0 -> virtual_disk g = Some vd ->
  0 <= start -> 0 <= count -> start + count <= TOTAL_SECTORS -> start < TOTAL_SECTORS ->
  disk_read 0 buff start count (mk_state g H tr) =
  ((RES_OK, fun i => if (0 <=? i) && (i <? 0 + count * SECTOR_SIZE)
                     then vd (start * SECTOR_SIZE + (i - 0)) else buff i),
   mk_state g H (tr ++ [Ev_memcpy (count * SECTOR_SIZE)])).
Proof.
  intros Hi Hu Hv H0 Hc Hend Hs.
  destruct (in_range_guard start count) as [Hg [Ho Hn]]; try lia.
  destruct g as [vd0 di df u]; cbn in Hi, Hu, Hv. subst u vd0.
  unfold disk_read, not_ready_guard, file_branch, memcpy. unfold_m. cbn.
  rewrite (proj2 (Z.eqb_neq di 0) Hi), Hg, Ho, Hn. cbn. reflexivity.
Qed.

(** Before initialization every request is refused and changes nothing. *)
Lemma refused_when_uninitialized (s : state) (pdrv sector count : Z) (buff : bytes) :
  disk_initialized (st_g s) = 0 ->
  disk_read pdrv buff sector count s = ((RES_PARERR, buff), s) /\
  disk_write pdrv buff sector count s = (RES_PARERR, s).
Proof.
  intros H.
  cbv beta iota zeta delta [disk_read disk_write bind get_globals get ret not_ready_guard].
  rewrite H, Bool.orb_true_r. split; reflexivity.
Qed.

(** ** Writes and reads move the stored bytes *)

(** A write inside the disk on a ready drive (on the file backend, with
    room for the range) answers RES_OK and stores B in exactly the bytes
    of the range: every other byte the drive held is left as it was, and
    the flag, [disk_file] and the open FILE objects do not change. *)
Theorem disk_write_stores (s : state) (start count : Z) (B : bytes) (img0 : image) :
  ready s -> backend s = Some img0 ->
  0 <= start -> 0 < count -> start + count <= TOTAL_SECTORS ->
  (use_file_backend (st_g s) <> 0 -> (start + count) * SECTOR_SIZE <= fs_capacity (st_h s)) ->
  let off := start * SECTOR_SIZE in
  let n := count * SECTOR_SIZE in
  let '(w, s1) := disk_write 0 B start count s in
  w = RES_OK /\
  disk_initialized (st_g s1) = disk_initialized (st_g s) /\
  disk_file (st_g s1) = disk_file (st_g s) /\
  open_files (st_h s1) = open_files (st_h s) /\
  exists img1, backend s1 = Some img1 /\
    img_size img1 = Z.max (img_size img0) (off + n) /\
    forall j, 0 <= j -> j < img_size img0 \/ off <= j < off + n ->
      img_data img1 j = if (off <=? j) && (j <? off + n) then B (j - off) else img_data img0 j.
Proof.
  intros [Hi [Hf Hm]] Hb H0 Hc Hend Hcap. cbv zeta.
  destruct s as [g H tr]; cbn [st_g st_h] in *.
  unfold backend in Hb; cbn [st_g st_h] in Hb.
  destruct (Z.eqb_spec (use_file_backend g) 0) as [Hu | Hu].
  - destruct (virtual_disk g) as [vd |] eqn:Hv; [| discriminate].
    injection Hb as <-.
    rewrite (disk_write_memory g H tr vd start count B Hi Hu Hv) by lia.
    cbn. repeat split. eexists. split; [reflexivity |]. cbn. split.
    + unfold TOTAL_SECTORS, SECTOR_SIZE in *. lia.
    + intros j _ _. zcase; try reflexivity; f_equal; lia.
  - destruct (Hf Hu) as [Hdf _].
    destruct (disk_file g) as [h |] eqn:Hd; [| congruence].
    destruct (disk_write_file g H tr h img0 start count B Hi Hu Hd Hb H0 Hc Hend (Hcap Hu))
      as [p E].
    rewrite E. cbn [st_g st_h]. rewrite Hd.
    repeat split. unfold backend. cbn [st_g st_h].
    rewrite (proj2 (Z.eqb_neq _ 0) Hu).
    eexists. split; [reflexivity |]. split; [reflexivity |].
    intros j Hj Hr. unfold write_image. cbn [img_size img_data].
    destruct ((start * SECTOR_SIZE <=? j) && (j <? start * SECTOR_SIZE + count * SECTOR_SIZE))
      eqn:E1; [reflexivity |].
    apply Bool.andb_false_iff in E1.
    destruct Hr as [Hr | Hr].
    + rewrite (proj2 (Z.leb_gt _ _) Hr). reflexivity.
    + destruct E1 as [E1 | E1]; [apply Z.leb_gt in E1 | apply Z.ltb_ge in E1]; lia.
Qed.

(** A read inside the disk on a ready drive changes neither the globals
    nor the stored bytes nor the open FILE objects. When the drive holds
    the whole range it answers RES_OK with the range's bytes in the first
    count * 512 bytes of the buffer and the rest of the buffer untouched;
    when the image file is shorter than the range it answers RES_ERROR. *)
Theorem disk_read_returns (s : state) (start count : Z) (buff : bytes) (img : image) :
  ready s -> backend s = Some img ->
  0 <= start -> 0 < count -> start + count <= TOTAL_SECTORS ->
  let off := start * SECTOR_SIZE in
  let n := count * SECTOR_SIZE in
  let '((r, b), s1) := disk_read 0 buff start count s in
  st_g s1 = st_g s /\ backend s1 = backend s /\ open_files (st_h s1) = open_files (st_h s) /\
  (off + n <= img_size img ->
     r = RES_OK /\ forall i, b i = if (0 <=? i) && (i <? n) then img_data img (off + i) else buff i) /\
  (img_size img < off + n -> r = RES_ERROR).
Proof.
  intros [Hi [Hf Hm]] Hb H0 Hc Hend. cbv zeta.
  destruct s as [g H tr]; cbn [st_g st_h] in *.
  unfold backend in Hb |- *; cbn [st_g st_h] in Hb |- *.
  destruct (Z.eqb_spec (use_file_backend g) 0) as [Hu | Hu].
  - destruct (virtual_disk g) as [vd |] eqn:Hv; [| discriminate].
    injection Hb as <-.
    rewrite (disk_read_memory g H tr vd start count buff Hi Hu Hv) by lia.
    cbn [st_g st_h img_size img_data]. rewrite Hu, Hv. cbn.
    repeat split.
    + intros i. zcase; try reflexivity; try lia. f_equal. lia.
    + intros Hx. exfalso. unfold TOTAL_SECTORS, SECTOR_SIZE in *. lia.
  - destruct (Hf Hu) as [Hdf _].
    destruct (disk_file g) as [h |] eqn:Hd; [| congruence].
    assert (Hs : start < TOTAL_SECTORS) by lia.
    destruct (disk_read_file g H tr h img start count buff Hi Hu Hd Hb H0 ltac:(lia) Hend Hs)
      as [p E].
    rewrite E. cbn [st_g st_h fs_image open_files with_image_pos].
    rewrite (proj2 (Z.eqb_neq _ 0) Hu), Hb.
    refine (conj eq_refl (conj eq_refl (conj eq_refl (conj _ _)))).
    + intros Hx. assert (Hk : Z.max 0 (Z.min (count * SECTOR_SIZE)
                     (img_size img - start * SECTOR_SIZE)) = count * SECTOR_SIZE)
        by (unfold SECTOR_SIZE in *; lia).
      rewrite Hk, Z.eqb_refl. split; reflexivity.
    + intros Hx. rewrite (proj2 (Z.eqb_neq _ _)) by (unfold SECTOR_SIZE in *; lia).
      reflexivity.
Qed.

(** ** Teardown and initialization again *)

(** cleanup_disk_resources closes the FILE object held in [disk_file] and
    no other, drops the memory buffer, clears the flag and keeps the
    backend choice; the image file stays on disk as it was. Afterwards
    drive 0 reports STA_NOINIT and every read or write is refused with
    RES_PARERR and no effect. *)
Theorem cleanup_disk_resources_releases (s : state) :
  let '(_, s1) := cleanup_disk_resources s in
  disk_initialized (st_g s1) = 0 /\ disk_file (st_g s1) = None /\
  virtual_disk (st_g s1) = None /\
  use_file_backend (st_g s1) = use_file_backend (st_g s) /\
  fs_image (st_h s1) = fs_image (st_h s) /\
  (forall x, In x (open_files (st_h s1)) <->
             In x (open_files (st_h s)) /\ disk_file (st_g s) <> Some x) /\
  trace s1 = trace s ++ match disk_file (st_g s) with Some h => [Ev_fclose h] | None => [] end /\
  disk_status 0 s1 = (STA_NOINIT, s1) /\
  (forall pdrv buff sector count,
     disk_read pdrv buff sector count s1 = ((RES_PARERR, buff), s1) /\
     disk_write pdrv buff sector count s1 = (RES_PARERR, s1)).
Proof.
  destruct s as [g H tr]. unfold cleanup_disk_resources. rewrite cleanup_eq.
  cbn [st_g st_h trace fresh_globals disk_initialized disk_file virtual_disk use_file_backend].
  split; [reflexivity |]. split; [reflexivity |]. split; [reflexivity |].
  split; [reflexivity |].
  split; [destruct (disk_file g); reflexivity |].
  split.
  - intros x. destruct (disk_file g) as [h |]; cbn [open_files].
    + split.
      * intros Hx. apply in_remove in Hx. destruct Hx as [Hx Hne].
        split; [exact Hx | congruence].
      * intros [Hx Hne]. apply in_in_remove; [congruence | exact Hx].
    + split; [intros Hx; split; [exact Hx | discriminate] | intros [Hx _]; exact Hx].
  - split; [reflexivity |]. split; [reflexivity |].
    intros pdrv buff sector count. apply refused_when_uninitialized. reflexivity.
Qed.

(** On a ready drive, cleanup_disk_resources followed by disk_initialize(0)
    gives a ready drive again. With the file backend the image is opened
    again with its contents as they were, and the only open FILE objects
    are the new one and those open before other than the old
    [disk_file]. With the memory backend (and a heap that can serve the
    calloc) the drive comes back all zero: what was written is lost. *)
Theorem reinitialize_after_cleanup (s : state) :
  ready s ->
  let '(_, s1) := cleanup_disk_resources s in
  let '(r, s2) := disk_initialize 0 s1 in
  (use_file_backend (st_g s) <> 0 ->
     r = 0 /\ ready s2 /\ backend s2 = backend s /\
     forall h, disk_file (st_g s) = Some h ->
       disk_file (st_g s2) = Some (next_handle (st_h s)) /\
       open_files (st_h s2) = next_handle (st_h s) :: remove Nat.eq_dec h (open_files (st_h s))) /\
  (use_file_backend (st_g s) = 0 -> heap_ok (st_h s) = true ->
     r = 0 /\ ready s2 /\ backend s2 = Some (mk_image (TOTAL_SECTORS * SECTOR_SIZE) zeros)).
Proof.
  intros [Hi [Hf Hm]].
  destruct s as [g H tr]; cbn [st_g st_h] in *.
  unfold cleanup_disk_resources. rewrite cleanup_eq. cbv beta iota.
  destruct (Z.eqb_spec (use_file_backend g) 0) as [Hu | Hu].
  - rewrite initialize_memory_fresh by (cbn; auto).
    destruct (disk_file g) as [h |]; cbn [heap_ok];
      destruct (heap_ok H) eqn:Hh; cbv beta iota;
      (split; [intros C; contradiction |]); intros _ Hh'; try congruence;
      (split; [reflexivity |]); (split; [| unfold backend; cbn; reflexivity]);
      unfold ready; cbn; (split; [discriminate |]);
      (split; [intros C; contradiction | intros _; discriminate]).
  - destruct (Hf Hu) as [Hdf Himg].
    destruct (fs_image H) as [img |] eqn:Ei; [| congruence].
    destruct (disk_file g) as [h |] eqn:Hd; [| congruence].
    rewrite (initialize_existing_image _ _ _ img) by (cbn; auto).
    cbv beta iota.
    split; [| intros C; contradiction]. intros _.
    split; [reflexivity |]. split.
    + unfold ready; cbn. split; [discriminate |].
      split; [intros _; split; discriminate | intros C; contradiction].
    + split.
      * unfold backend; cbn. rewrite (proj2 (Z.eqb_neq _ 0) Hu), Ei. reflexivity.
      * intros h' E. injection E as <-. split; reflexivity.
Qed.

(** Data written to the file backend survives a teardown: on a ready
    file-backed drive whose image has the full TOTAL_SECTORS * SECTOR_SIZE
    bytes and room to keep them, a disk_write of B to a range inside the
    disk, then cleanup_disk_resources, then disk_initialize(0), then a
    disk_read of the same range all succeed, and the read returns B. *)
Theorem data_survives_reinitialize (s : state) (start count : Z) (B buff : bytes) :
  ready s -> use_file_backend (st_g s) <> 0 ->
  option_map img_size (fs_image (st_h s)) = Some DISK_BYTES ->
  DISK_BYTES <= fs_capacity (st_h s) ->
  0 <= start -> 0 < count -> start + count <= TOTAL_SECTORS ->
  let '(w, s1) := disk_write 0 B start count s in
  let '(_, s2) := cleanup_disk_resources s1 in
  let '(r, s3) := disk_initialize 0 s2 in
  let '((rr, b), _) := disk_read 0 buff start count s3 in
  w = RES_OK /\ r = 0 /\ rr = RES_OK /\
  forall i, 0 <= i < count * SECTOR_SIZE -> b i = B i.
Proof.
  intros [Hi [Hf _]] Hu Hsz Hcap H0 Hc Hend.
  destruct s as [g H tr]; cbn [st_g st_h] in *.
  destruct (Hf Hu) as [Hdf Himg].
  destruct (fs_image H) as [img |] eqn:Ei; [| congruence].
  destruct (disk_file g) as [h |] eqn:Hd; [| congruence].
  injection Hsz as Hsz.
  assert (Hcap' : (start + count) * SECTOR_SIZE <= fs_capacity H)
    by (unfold DISK_BYTES, TOTAL_SECTORS, SECTOR_SIZE in *; lia).
  destruct (disk_write_file g H tr h img start count B Hi Hu Hd Ei H0 Hc Hend Hcap')
    as [p E1].
  rewrite E1. cbv beta iota.
  unfold cleanup_disk_resources. rewrite cleanup_eq, Hd. cbv beta iota.
  set (img1 := write_image img (start * SECTOR_SIZE) B (count * SECTOR_SIZE)).
  rewrite (initialize_existing_image _ _ _ img1) by (cbn; auto).
  cbv beta iota.
  assert (Hs : start < TOTAL_SECTORS) by lia.
  match goal with
  | |- context [disk_read 0 buff start count (mk_state ?g3 ?H3 ?tr3)] =>
      destruct (disk_read_file g3 H3 tr3 (next_handle H) img1 start count buff
                  ltac:(cbn; discriminate) ltac:(cbn; exact Hu) eq_refl eq_refl
                  H0 ltac:(lia) Hend Hs) as [p2 E2]
  end.
  rewrite E2. cbv beta iota.
  assert (Hk : Z.max 0 (Z.min (count * SECTOR_SIZE) (img_size img1 - start * SECTOR_SIZE))
               = count * SECTOR_SIZE)
    by (subst img1; cbn [write_image img_size];
        unfold DISK_BYTES, TOTAL_SECTORS, SECTOR_SIZE in *; lia).
  rewrite Hk, Z.eqb_refl.
  split; [reflexivity |]. split; [reflexivity |]. split; [reflexivity |].
  intros i Hi'. zcase; try lia.
  subst img1. unfold write_image. cbn [img_data]. zcase; try lia; f_equal; lia.
Qed.

(** With the memory backend and no buffer yet, disk_initialize(0)
    succeeds exactly when calloc does: the drive is then ready, holds
    TOTAL_SECTORS * SECTOR_SIZE zero bytes and reports status 0, with the
    host untouched. When calloc fails it answers STA_NOINIT, keeps no
    buffer and leaves the flag as it was. *)
Theorem initialize_memory_backend (s : state) :
  use_file_backend (st_g s) = 0 -> virtual_disk (st_g s) = None ->
  let '(r, s1) := disk_initialize 0 s in
  (heap_ok (st_h s) = true ->
     r = 0 /\ ready s1 /\ backend s1 = Some (mk_image (TOTAL_SECTORS * SECTOR_SIZE) zeros) /\
     disk_status 0 s1 = (0, s1) /\ st_h s1 = st_h s) /\
  (heap_ok (st_h s) = false ->
     r = STA_NOINIT /\ virtual_disk (st_g s1) = None /\
     disk_initialized (st_g s1) = disk_initialized (st_g s)).
Proof.
  intros Hu Hv. destruct s as [g H tr]; cbn [st_g st_h] in *.
  rewrite initialize_memory_fresh by assumption.
  destruct (heap_ok H) eqn:Hh.
  - split; [| discriminate]. intros _.
    split; [reflexivity |]. split.
    + unfold ready; cbn. split; [discriminate |].
      split; [intros C; contradiction | intros _; discriminate].
    + split; [unfold backend; cbn; reflexivity |]. split; reflexivity.
  - split; [discriminate |]. intros _. split; [reflexivity |]. split; reflexivity.
Qed.

(** format_virtual_disk formats nothing: on an initialized drive it
    answers 1 and changes no state at all; on a drive not initialized it
    runs the same setup as disk_initialize(0), ends in the same state, and
    answers 1 exactly when disk_initialize(0) would answer 0. *)
Theorem format_virtual_disk_spec (s : state) :
  (disk_initialized (st_g s) <> 0 -> format_virtual_disk s = (1, s)) /\
  (disk_initialized (st_g s) = 0 ->
     snd (format_virtual_disk s) = snd (disk_initialize 0 s) /\
     (fst (format_virtual_disk s) = 1 <-> fst (disk_initialize 0 s) = 0)).
Proof.
  unfold format_virtual_disk, disk_initialize. unfold_m. rewrite Z.eqb_refl.
  split.
  - intros Hi. rewrite (proj2 (Z.eqb_neq _ 0) Hi). reflexivity.
  - intros Hi. rewrite Hi. cbn [Z.eqb].
    destruct (init_virtual_disk s) as [r s1]. cbn.
    split; [destruct (r =? 0); reflexivity |].
    destruct (r =? 0); cbn; split; intros E; try reflexivity; discriminate.
Qed.

(** ** disk_ioctl, disk_status and drives other than 0 *)

(** On drive 0, CTRL_SYNC answers RES_OK and its only effect is an fflush
    of [disk_file] when the file backend is in use and a file is open;
    GET_BLOCK_SIZE answers an erase block of 1 sector and changes
    nothing. *)
Theorem disk_ioctl_sync_block (s : state) :
  disk_ioctl 0 CTRL_SYNC s =
    ((RES_OK, None),
     match disk_file (st_g s) with
     | Some h => if use_file_backend (st_g s) =? 0 then s
                 else mk_state (st_g s) (st_h s) (trace s ++ [Ev_fflush h])
     | None => s
     end) /\
  disk_ioctl 0 GET_BLOCK_SIZE s = ((RES_OK, Some 1), s).
Proof.
  split; [| reflexivity].
  destruct s as [[vd di df u] H tr].
  unfold disk_ioctl, file_branch, fflush. unfold_m. cbn.
  destruct (u =? 0), df; reflexivity.
Qed.

(** A drive number other than 0 is no drive: disk_status and
    disk_initialize answer STA_NOINIT, disk_read, disk_write and every
    disk_ioctl command answer RES_PARERR, and none of them has any effect
    (the caller's buffer included). *)
Theorem other_drive_no_effect (s : state) (pdrv : Z) :
  pdrv <> 0 ->
  disk_status pdrv s = (STA_NOINIT, s) /\
  disk_initialize pdrv s = (STA_NOINIT, s) /\
  (forall buff sector count,
     disk_read pdrv buff sector count s = ((RES_PARERR, buff), s) /\
     disk_write pdrv buff sector count s = (RES_PARERR, s)) /\
  (forall cmd, disk_ioctl pdrv cmd s = ((RES_PARERR, None), s)).
Proof.
  intros Hp. apply Z.eqb_neq in Hp.
  unfold disk_status, disk_initialize, disk_read, disk_write, disk_ioctl, not_ready_guard.
  unfold_m. rewrite Hp. cbn [negb orb].
  split; [reflexivity |]. split; [reflexivity |].
  split; [intros; split; reflexivity | intros; reflexivity].
Qed.

(** ** Timestamps and the Python binding *)

(** get_fattime packs the fixed time 2025-10-11 14:30:00 (year 45 after
    1980, month 10, day 11, hour 14, minute 30, seconds/2 0) into a
    32-bit FAT timestamp; the stub build of diskio_minimal.c packs
    2025-01-01 12:00:00 instead. Both are valid FAT date-times. *)
Theorem get_fattime_fields :
  fat_fields get_fattime = [45; 10; 11; 14; 30; 0] /\ is_u32 get_fattime /\
  fat_fields Minimal.get_fattime = [45; 1; 1; 12; 0; 0] /\ is_u32 Minimal.get_fattime.
Proof.
  unfold is_u32. vm_compute. repeat split; discriminate.
Qed.

(** fatfs_get_disk_info, given its two distinct stack cells, always hands
    (8192, 512) to Python, whatever the state of the drive, and changes
    no state. *)
Theorem fatfs_get_disk_info_geometry (pts pss : Z) (m : mem) (s : state) :
  pts <> 0 -> pss <> 0 -> pts <> pss ->
  fatfs_get_disk_info pts pss m s = (Some (TOTAL_SECTORS, SECTOR_SIZE), s).
Proof.
  intros H1 H2 H3.
  unfold fatfs_get_disk_info, get_disk_info, store. unfold_m.
  rewrite (proj2 (Z.eqb_neq _ 0) H1), (proj2 (Z.eqb_neq _ 0) H2). cbn [negb].
  rewrite Z.eqb_refl, Z.eqb_refl, (proj2 (Z.eqb_neq _ _) H3). reflexivity.
Qed.

(** ** The stub driver of diskio_minimal.c *)

(** In the stub build, drives 0, 1 and 2 always report status 0 and
    initialize with 0, and disk_read and disk_write answer RES_OK for any
    sector and count (with no range check) while no data moves: the read
    leaves the caller's buffer as it was. Every other drive answers
    STA_NOINIT and RES_PARERR. *)
Theorem minimal_stub_io (pdrv sector count : Z) (buff : bytes) :
  (0 <= pdrv <= 2 ->
     Minimal.disk_status pdrv = 0 /\ Minimal.disk_initialize pdrv = 0 /\
     Minimal.disk_read pdrv buff sector count = (RES_OK, buff) /\
     Minimal.disk_write pdrv buff sector count = RES_OK) /\
  (~ (0 <= pdrv <= 2) ->
     Minimal.disk_status pdrv = STA_NOINIT /\ Minimal.disk_initialize pdrv = STA_NOINIT /\
     Minimal.disk_read pdrv buff sector count = (RES_PARERR, buff) /\
     Minimal.disk_write pdrv buff sector count = RES_PARERR).
Proof.
  unfold Minimal.disk_status, Minimal.disk_initialize, Minimal.disk_read,
    Minimal.disk_write, Minimal.known_drive, Minimal.DEV_FLASH, Minimal.DEV_MMC,
    Minimal.DEV_USB.
  split; intros Hp.
  - assert (E : ((pdrv =? 0) || (pdrv =? 1) || (pdrv =? 2))%bool = true)
      by (destruct (Z.eqb_spec pdrv 0), (Z.eqb_spec pdrv 1), (Z.eqb_spec pdrv 2);
          cbn; auto; lia).
    rewrite E. repeat split.
  - assert (E : ((pdrv =? 0) || (pdrv =? 1) || (pdrv =? 2))%bool = false)
      by (destruct (Z.eqb_spec pdrv 0), (Z.eqb_spec pdrv 1), (Z.eqb_spec pdrv 2);
          cbn; auto; lia).
    rewrite E. repeat split.
Qed.

(** On drives 0, 1 and 2 the stub disk_ioctl answers every command as the
    working driver's disk_ioctl answers it on drive 0 (result code and
    value), except GET_SECTOR_COUNT, where the stub reports 1024 sectors
    against the working driver's 8192. *)
Theorem minimal_ioctl_vs_working (pdrv cmd : Z) (s : state) :
  0 <= pdrv <= 2 ->
  (cmd <> GET_SECTOR_COUNT -> Minimal.disk_ioctl pdrv cmd = fst (disk_ioctl 0 cmd s)) /\
  Minimal.disk_ioctl pdrv GET_SECTOR_COUNT = (RES_OK, Some 1024) /\
  fst (disk_ioctl 0 GET_SECTOR_COUNT s) = (RES_OK, Some TOTAL_SECTORS).
Proof.
  intros Hp.
  assert (E : Minimal.known_drive pdrv = true)
    by (unfold Minimal.known_drive, Minimal.DEV_FLASH, Minimal.DEV_MMC, Minimal.DEV_USB;
        destruct (Z.eqb_spec pdrv 0), (Z.eqb_spec pdrv 1), (Z.eqb_spec pdrv 2);
        cbn; auto; lia).
  unfold Minimal.disk_ioctl, disk_ioctl. unfold_m. rewrite E.
  split; [| split; reflexivity].
  intros Hc. cbn [Z.eqb negb].
  destruct (cmd =? CTRL_SYNC).
  - destruct (file_branch (st_g s)); reflexivity.
  - apply Z.eqb_neq in Hc. rewrite Hc.
    destruct (cmd =? GET_SECTOR_SIZE), (cmd =? GET_BLOCK_SIZE); reflexivity.
Qed.

(** ** Witnesses *)

Lemma range_check_no_wrap_witness :
  disk_initialized (st_g mem_ready) <> 0 /\ is_u32 10 /\ is_u32 2 /\ 10 + 2 < 2 ^ 32 /\
  ((fst (fst (disk_read 0 zeros 10 2 mem_ready)) <> RES_PARERR <->
      10 < TOTAL_SECTORS /\ 10 + 2 <= TOTAL_SECTORS) /\
   (fst (disk_write 0 zeros 10 2 mem_ready) <> RES_PARERR <->
      10 < TOTAL_SECTORS /\ 10 + 2 <= TOTAL_SECTORS)).
Proof.
  assert (H1 : disk_initialized (st_g mem_ready) <> 0) by discriminate.
  assert (H2 : is_u32 10) by (unfold is_u32; lia).
  assert (H3 : is_u32 2) by (unfold is_u32; lia).
  assert (H4 : 10 + 2 < 2 ^ 32) by lia.
  exact (conj H1 (conj H2 (conj H3 (conj H4
           (range_check_no_wrap mem_ready 10 2 zeros H1 H2 H3 H4))))).
Defined.

Lemma file_ready_ready : ready file_ready.
Proof.
  unfold ready; cbn. repeat split; try discriminate.
Qed.

Lemma write_then_read_witness :
  ready file_ready /\ 0 <= 10 /\ 0 < 2 /\ 10 + 2 <= TOTAL_SECTORS /\
  (use_file_backend (st_g file_ready) <> 0 ->
   (10 + 2) * SECTOR_SIZE <= fs_capacity (st_h file_ready)) /\
  let '(w, s1) := disk_write 0 (fun _ => 170) 10 2 file_ready in
  w = RES_OK /\
  (let '(r, s2) := disk_read 0 zeros 10 2 s1 in
   fst r = RES_OK /\ forall i, 0 <= i < 2 * SECTOR_SIZE -> snd r i = 170).
Proof.
  assert (H2 : 0 <= 10) by lia.
  assert (H3 : 0 < 2) by lia.
  assert (H4 : 10 + 2 <= TOTAL_SECTORS) by (unfold TOTAL_SECTORS; lia).
  assert (H5 : use_file_backend (st_g file_ready) <> 0 ->
               (10 + 2) * SECTOR_SIZE <= fs_capacity (st_h file_ready))
    by (intros _; cbn; unfold SECTOR_SIZE; lia).
  exact (conj file_ready_ready (conj H2 (conj H3 (conj H4 (conj H5
           (write_then_read file_ready 10 2 (fun _ => 170) zeros
              file_ready_ready H2 H3 H4 H5)))))).
Defined.

Lemma not_initialized_parerr_witness :
  disk_initialized (st_g mem_fresh) = 0 /\
  disk_read 0 zeros 3 1 mem_fresh = ((RES_PARERR, zeros), mem_fresh) /\
  disk_write 0 zeros 3 1 mem_fresh = (RES_PARERR, mem_fresh).
Proof.
  assert (H : disk_initialized (st_g mem_fresh) = 0) by reflexivity.
  exact (conj H (not_initialized_parerr mem_fresh 0 3 1 zeros H)).
Defined.

Lemma initialize_creates_zero_image_witness :
  let res := disk_initialize 0 (file_fresh (2 ^ 40)) in
  use_file_backend (st_g (file_fresh (2 ^ 40))) <> 0 /\
  fs_image (st_h (file_fresh (2 ^ 40))) = None /\
  fs_can_create (st_h (file_fresh (2 ^ 40))) = true /\
  DISK_BYTES <= fs_capacity (st_h (file_fresh (2 ^ 40))) /\
  disk_initialize 0 (file_fresh (2 ^ 40)) = (fst res, snd res) /\
  fst res = 0 /\
  (exists d, fs_image (st_h (snd res)) = Some (mk_image DISK_BYTES d) /\
             forall j, 0 <= j < DISK_BYTES -> d j = 0) /\
  trace (snd res) = trace (file_fresh (2 ^ 40)) ++
             [Ev_fopen MODE_RPLUS_B false; Ev_fopen MODE_WPLUS_B true] ++
             repeat (Ev_fwrite (next_handle (st_h (file_fresh (2 ^ 40)))) SECTOR_SIZE SECTOR_SIZE)
               (Z.to_nat TOTAL_SECTORS) ++
             [Ev_fflush (next_handle (st_h (file_fresh (2 ^ 40))))] /\
  disk_initialized (st_g (snd res)) = 1 /\ disk_status 0 (snd res) = (0, snd res) /\
  ready (snd res).
Proof.
  intros res.
  assert (H1 : use_file_backend (st_g (file_fresh (2 ^ 40))) <> 0) by discriminate.
  assert (H2 : fs_image (st_h (file_fresh (2 ^ 40))) = None) by reflexivity.
  assert (H3 : fs_can_create (st_h (file_fresh (2 ^ 40))) = true) by reflexivity.
  assert (H4 : DISK_BYTES <= fs_capacity (st_h (file_fresh (2 ^ 40))))
    by (cbn; unfold DISK_BYTES, TOTAL_SECTORS, SECTOR_SIZE; lia).
  assert (E : disk_initialize 0 (file_fresh (2 ^ 40)) = (fst res, snd res))
    by apply surjective_pairing.
  exact (conj H1 (conj H2 (conj H3 (conj H4 (conj E
           (initialize_creates_zero_image (file_fresh (2 ^ 40)) (fst res) (snd res)
              H1 H2 H3 H4 E)))))).
Defined.

Lemma initialize_failure_closes_witness :
  let res := disk_initialize 0 (file_fresh 1024) in
  use_file_backend (st_g (file_fresh 1024)) <> 0 /\
  disk_initialized (st_g (file_fresh 1024)) = 0 /\
  host_wf (st_h (file_fresh 1024)) /\
  disk_initialize 0 (file_fresh 1024) = (fst res, snd res) /\
  fst res <> 0 /\
  fst res = STA_NOINIT /\ disk_initialized (st_g (snd res)) = 0 /\
  disk_status 0 (snd res) = (STA_NOINIT, snd res) /\
  disk_file (st_g (snd res)) = None /\
  open_files (st_h (snd res)) = open_files (st_h (file_fresh 1024)) /\
  fs_image (st_h (file_fresh 1024)) = None /\
  fs_can_create (st_h (file_fresh 1024)) = true /\
  fs_image (st_h (snd res)) <> None.
Proof.
  intros res.
  assert (H1 : use_file_backend (st_g (file_fresh 1024)) <> 0) by discriminate.
  assert (H2 : disk_initialized (st_g (file_fresh 1024)) = 0) by reflexivity.
  assert (H3 : host_wf (st_h (file_fresh 1024))) by (intros x Hx; destruct Hx).
  assert (E : disk_initialize 0 (file_fresh 1024) = (fst res, snd res))
    by apply surjective_pairing.
  assert (F : fst res <> 0) by (unfold res; vm_compute; discriminate).
  assert (N : fs_image (st_h (file_fresh 1024)) = None) by reflexivity.
  assert (C : fs_can_create (st_h (file_fresh 1024)) = true) by reflexivity.
  destruct (initialize_failure_closes (file_fresh 1024) (fst res) (snd res) H1 H2 H3 E)
    as [_ [Fail Kept]].
  destruct (Fail F) as (R1 & R2 & R3 & R4 & R5).
  exact (conj H1 (conj H2 (conj H3 (conj E (conj F
           (conj R1 (conj R2 (conj R3 (conj R4 (conj R5
              (conj N (conj C (Kept N C F))))))))))))).
Defined.

Lemma mem_ready_ready : ready mem_ready.
Proof.
  unfold ready; cbn. split; [discriminate|split]; [intros X; exfalso; apply X; reflexivity|intros _; discriminate].
Qed.

Lemma zero_count_noop_witness :
  ready mem_ready /\ 0 <= 5 < TOTAL_SECTORS /\
  let '(r, s1) := disk_read 0 zeros 5 0 mem_ready in
  let '(w, s2) := disk_write 0 zeros 5 0 mem_ready in
  r = (RES_OK, zeros) /\ st_g s1 = st_g mem_ready /\
  fs_image (st_h s1) = fs_image (st_h mem_ready) /\
  w = RES_OK /\ st_g s2 = st_g mem_ready /\ fs_image (st_h s2) = fs_image (st_h mem_ready).
Proof.
  assert (H : 0 <= 5 < TOTAL_SECTORS) by (unfold TOTAL_SECTORS; lia).
  exact (conj mem_ready_ready (conj H (zero_count_noop mem_ready 5 zeros zeros mem_ready_ready H))).
Defined.

Lemma initialize_again_memory_witness :
  use_file_backend (st_g mem_ready) = 0 /\ virtual_disk (st_g mem_ready) <> None /\
  disk_initialized (st_g mem_ready) = 1 /\ disk_initialize 0 mem_ready = (0, mem_ready).
Proof.
  assert (H1 : use_file_backend (st_g mem_ready) = 0) by reflexivity.
  assert (H2 : virtual_disk (st_g mem_ready) <> None) by discriminate.
  assert (H3 : disk_initialized (st_g mem_ready) = 1) by reflexivity.
  exact (conj H1 (conj H2 (conj H3 (initialize_again_memory mem_ready H1 H2 H3)))).
Defined.

Lemma disk_write_stores_witness :
  let s := mem_ready in let start := 10 in let count := 2 in
  let B := fun _ : Z => 170 in let img0 := mk_image (TOTAL_SECTORS * SECTOR_SIZE) zeros in
  ready s /\ backend s = Some img0 /\
  0 <= start /\ 0 < count /\ start + count <= TOTAL_SECTORS /\
  (use_file_backend (st_g s) <> 0 -> (start + count) * SECTOR_SIZE <= fs_capacity (st_h s)) /\
  let off := start * SECTOR_SIZE in
  let n := count * SECTOR_SIZE in
  let '(w, s1) := disk_write 0 B start count s in
  w = RES_OK /\
  disk_initialized (st_g s1) = disk_initialized (st_g s) /\
  disk_file (st_g s1) = disk_file (st_g s) /\
  open_files (st_h s1) = open_files (st_h s) /\
  exists img1, backend s1 = Some img1 /\
    img_size img1 = Z.max (img_size img0) (off + n) /\
    forall j, 0 <= j -> j < img_size img0 \/ off <= j < off + n ->
      img_data img1 j = if (off <=? j) && (j <? off + n) then B (j - off) else img_data img0 j.
Proof.
  intros s start count B img0.
  assert (H1 : ready s) by exact mem_ready_ready.
  assert (H2 : backend s = Some img0) by reflexivity.
  assert (H3 : 0 <= start) by (unfold start; lia).
  assert (H4 : 0 < count) by (unfold count; lia).
  assert (H5 : start + count <= TOTAL_SECTORS) by (unfold start, count, TOTAL_SECTORS; lia).
  assert (H6 : use_file_backend (st_g s) <> 0 ->
               (start + count) * SECTOR_SIZE <= fs_capacity (st_h s))
    by (intros C; exfalso; apply C; reflexivity).
  exact (conj H1 (conj H2 (conj H3 (conj H4 (conj H5 (conj H6
           (disk_write_stores s start count B img0 H1 H2 H3 H4 H5 H6))))))).
Defined.

Lemma disk_read_returns_witness :
  let s := file_ready in let start := 10 in let count := 2 in
  let buff := zeros in let img := mk_image DISK_BYTES zeros in
  ready s /\ backend s = Some img /\
  0 <= start /\ 0 < count /\ start + count <= TOTAL_SECTORS /\
  let off := start * SECTOR_SIZE in
  let n := count * SECTOR_SIZE in
  let '((r, b), s1) := disk_read 0 buff start count s in
  st_g s1 = st_g s /\ backend s1 = backend s /\ open_files (st_h s1) = open_files (st_h s) /\
  (off + n <= img_size img ->
     r = RES_OK /\ forall i, b i = if (0 <=? i) && (i <? n) then img_data img (off + i) else buff i) /\
  (img_size img < off + n -> r = RES_ERROR).
Proof.
  intros s start count buff img.
  assert (H1 : ready s) by exact file_ready_ready.
  assert (H2 : backend s = Some img) by reflexivity.
  assert (H3 : 0 <= start) by (unfold start; lia).
  assert (H4 : 0 < count) by (unfold count; lia).
  assert (H5 : start + count <= TOTAL_SECTORS) by (unfold start, count, TOTAL_SECTORS; lia).
  exact (conj H1 (conj H2 (conj H3 (conj H4 (conj H5
           (disk_read_returns s start count buff img H1 H2 H3 H4 H5)))))).
Defined.

Lemma reinitialize_after_cleanup_witness :
  let s := file_ready in
  ready s /\
  let '(_, s1) := cleanup_disk_resources s in
  let '(r, s2) := disk_initialize 0 s1 in
  (use_file_backend (st_g s) <> 0 ->
     r = 0 /\ ready s2 /\ backend s2 = backend s /\
     forall h, disk_file (st_g s) = Some h ->
       disk_file (st_g s2) = Some (next_handle (st_h s)) /\
       open_files (st_h s2) = next_handle (st_h s) :: remove Nat.eq_dec h (open_files (st_h s))) /\
  (use_file_backend (st_g s) = 0 -> heap_ok (st_h s) = true ->
     r = 0 /\ ready s2 /\ backend s2 = Some (mk_image (TOTAL_SECTORS * SECTOR_SIZE) zeros)).
Proof.
  intros s.
  assert (H1 : ready s) by exact file_ready_ready.
  exact (conj H1 (reinitialize_after_cleanup s H1)).
Defined.

Lemma data_survives_reinitialize_witness :
  let s := file_ready in let start := 10 in let count := 2 in
  let B := fun _ : Z => 170 in let buff := zeros in
  ready s /\ use_file_backend (st_g s) <> 0 /\
  option_map img_size (fs_image (st_h s)) = Some DISK_BYTES /\
  DISK_BYTES <= fs_capacity (st_h s) /\
  0 <= start /\ 0 < count /\ start + count <= TOTAL_SECTORS /\
  let '(w, s1) := disk_write 0 B start count s in
  let '(_, s2) := cleanup_disk_resources s1 in
  let '(r, s3) := disk_initialize 0 s2 in
  let '((rr, b), _) := disk_read 0 buff start count s3 in
  w = RES_OK /\ r = 0 /\ rr = RES_OK /\
  forall i, 0 <= i < count * SECTOR_SIZE -> b i = B i.
Proof.
  intros s start count B buff.
  assert (H1 : ready s) by exact file_ready_ready.
  assert (H2 : use_file_backend (st_g s) <> 0) by discriminate.
  assert (H3 : option_map img_size (fs_image (st_h s)) = Some DISK_BYTES) by reflexivity.
  assert (H4 : DISK_BYTES <= fs_capacity (st_h s))
    by (unfold s, file_ready, DISK_BYTES, TOTAL_SECTORS, SECTOR_SIZE; cbn; lia).
  assert (H5 : 0 <= start) by (unfold start; lia).
  assert (H6 : 0 < count) by (unfold count; lia).
  assert (H7 : start + count <= TOTAL_SECTORS) by (unfold start, count, TOTAL_SECTORS; lia).
  exact (conj H1 (conj H2 (conj H3 (conj H4 (conj H5 (conj H6 (conj H7
           (data_survives_reinitialize s start count B buff H1 H2 H3 H4 H5 H6 H7)))))))).
Defined.

Lemma initialize_memory_backend_witness :
  let s := mem_fresh in
  use_file_backend (st_g s) = 0 /\ virtual_disk (st_g s) = None /\
  let '(r, s1) := disk_initialize 0 s in
  (heap_ok (st_h s) = true ->
     r = 0 /\ ready s1 /\ backend s1 = Some (mk_image (TOTAL_SECTORS * SECTOR_SIZE) zeros) /\
     disk_status 0 s1 = (0, s1) /\ st_h s1 = st_h s) /\
  (heap_ok (st_h s) = false ->
     r = STA_NOINIT /\ virtual_disk (st_g s1) = None /\
     disk_initialized (st_g s1) = disk_initialized (st_g s)).
Proof.
  intros s.
  assert (H1 : use_file_backend (st_g s) = 0) by reflexivity.
  assert (H2 : virtual_disk (st_g s) = None) by reflexivity.
  exact (conj H1 (conj H2 (initialize_memory_backend s H1 H2))).
Defined.

Lemma other_drive_no_effect_witness :
  let s := mem_ready in let pdrv := 1 in
  pdrv <> 0 /\
  disk_status pdrv s = (STA_NOINIT, s) /\
  disk_initialize pdrv s = (STA_NOINIT, s) /\
  (forall buff sector count,
     disk_read pdrv buff sector count s = ((RES_PARERR, buff), s) /\
     disk_write pdrv buff sector count s = (RES_PARERR, s)) /\
  (forall cmd, disk_ioctl pdrv cmd s = ((RES_PARERR, None), s)).
Proof.
  intros s pdrv.
  assert (H1 : pdrv <> 0) by discriminate.
  exact (conj H1 (other_drive_no_effect s pdrv H1)).
Defined.

Lemma fatfs_get_disk_info_geometry_witness :
  let pts := 8 in let pss := 16 in let m : mem := fun _ => 0 in let s := mem_fresh in
  pts <> 0 /\ pss <> 0 /\ pts <> pss /\
  fatfs_get_disk_info pts pss m s = (Some (TOTAL_SECTORS, SECTOR_SIZE), s).
Proof.
  intros pts pss m s.
  assert (H1 : pts <> 0) by discriminate.
  assert (H2 : pss <> 0) by discriminate.
  assert (H3 : pts <> pss) by discriminate.
  exact (conj H1 (conj H2 (conj H3 (fatfs_get_disk_info_geometry pts pss m s H1 H2 H3)))).
Defined.

Lemma minimal_ioctl_vs_working_witness :
  let pdrv := 1 in let cmd := GET_SECTOR_SIZE in let s := mem_ready in
  0 <= pdrv <= 2 /\
  (cmd <> GET_SECTOR_COUNT -> Minimal.disk_ioctl pdrv cmd = fst (disk_ioctl 0 cmd s)) /\
  Minimal.disk_ioctl pdrv GET_SECTOR_COUNT = (RES_OK, Some 1024) /\
  fst (disk_ioctl 0 GET_SECTOR_COUNT s) = (RES_OK, Some TOTAL_SECTORS).
Proof.
  intros pdrv cmd s.
  assert (H1 : 0 <= pdrv <= 2) by (unfold pdrv; lia).
  exact (conj H1 (minimal_ioctl_vs_working pdrv cmd s H1)).
Defined.

End DiskIO.
